(** * Agentic podcast workflow: director + writer orchestration

    A shallow embedding of
      - [open_notebook/domain/agentic_podcast.py]  (the workflow record),
      - [open_notebook/agents/writer.py], [open_notebook/agents/director.py],
      - [open_notebook/graphs/agentic_podcast.py]  (the LangGraph engine),
      - [api/agentic_podcast_service.py]           (the service layer),
    together with the properties of the orchestration engine.

    Python [int] is [Z], [str] is [string], [Optional] is [option], a raised
    exception is the left summand of the result of a computation in the
    monad [M] below, which threads the record store, the history of saved
    records and the log of the calls made to the writer agent. *)

From Stdlib Require Import ZArith String Ascii DecimalString.
From stdpp Require Import base option list sorting gmap strings stringmap.

Local Open Scope string_scope.
Local Open Scope Z_scope.

(** ** Python helpers *)

Module Py.

(** [str(n)] for an [int]. *)
Definition str_int (n : Z) : string := NilZero.string_of_int (Z.to_int n).

(** [sep.join(xs)]. *)
Fixpoint join (sep : string) (xs : list string) : string :=
  match xs with
  | [] => EmptyString
  | [x] => x
  | x :: rest => x ++ sep ++ join sep rest
  end.

(** [len(xs)] as an [int]. *)
Definition len {A} (xs : list A) : Z := Z.of_nat (length xs).

(** [xs[-n:]]: the last [n] elements (all of them when there are fewer). *)
Definition last_n {A} (n : nat) (xs : list A) : list A :=
  drop (length xs - n)%nat xs.

(** [enumerate(xs)]. *)
Fixpoint enumerate_from {A} (i : Z) (xs : list A) : list (Z * A) :=
  match xs with
  | [] => []
  | x :: rest => (i, x) :: enumerate_from (i + 1) rest
  end.
Definition enumerate {A} (xs : list A) : list (Z * A) := enumerate_from 0 xs.

(** [sorted(xs, key=key)] on integer keys.  Python's sort is stable, and a
    stable sort is determined by its input: it is written here as a stable
    insertion sort (an element is placed after the elements of equal key
    that came before it). *)
Section Sorted.
Context {A : Type} (key : A → Z).

Fixpoint insert_by (x : A) (l : list A) : list A :=
  match l with
  | [] => [x]
  | y :: l' => if key x <? key y then x :: y :: l' else y :: insert_by x l'
  end.

Definition sorted (l : list A) : list A :=
  foldl (fun acc x => insert_by x acc) [] l.

End Sorted.

(** ASCII white space, as [str.isspace] sees it. *)
Definition isspace (c : ascii) : bool :=
  let n := nat_of_ascii c in
  ((9 <=? n) && (n <=? 13) || (28 <=? n) && (n <=? 32))%nat.

Fixpoint lstrip (s : string) : string :=
  match s with
  | String c s' => if isspace c then lstrip s' else s
  | EmptyString => EmptyString
  end.

Fixpoint rstrip (s : string) : string :=
  match s with
  | String c s' =>
      match rstrip s' with
      | EmptyString => if isspace c then EmptyString else String c EmptyString
      | r => String c r
      end
  | EmptyString => EmptyString
  end.

(** [s.strip()]. *)
Definition strip (s : string) : string := rstrip (lstrip s).

(** Truth value of an [Optional[str]]: [None] and the empty string are false. *)
Definition truthy_str (s : option string) : bool :=
  match s with
  | Some (String _ _) => true
  | _ => false
  end.

(** [len(s)] of a string, as an [int]. *)
Definition len_str (s : string) : Z := Z.of_nat (String.length s).

(** The first [n] characters of [s] (all of [s] when it is shorter). *)
Fixpoint str_take (n : nat) (s : string) : string :=
  match n, s with
  | S n', String c s' => String c (str_take n' s')
  | _, _ => EmptyString
  end.

(** [s[:n]]: for a negative [n] the last [-n] characters are left out. *)
Definition slice_to (n : Z) (s : string) : string :=
  if 0 <=? n then str_take (Z.to_nat n) s
  else str_take (String.length s - Z.to_nat (- n)) s.

(** [x or d] on an optional string: [None] and the empty string give [d]. *)
Definition or_str (x : option string) (d : string) : string :=
  match x with
  | Some (String c s) => String c s
  | _ => d
  end.

End Py.

(** ** Domain model ([open_notebook/domain/agentic_podcast.py]) *)

Inductive WorkflowStage := director | writer | stage_completed | stage_failed.
Inductive WorkflowStatus := pending | in_progress | completed | failed.
Inductive SegmentSize := short | medium | long.

Definition str_status (s : WorkflowStatus) : string :=
  match s with
  | pending => "pending"
  | in_progress => "in_progress"
  | completed => "completed"
  | failed => "failed"
  end.

Record OutlineSegment := mkOutlineSegment {
  seg_name : string;
  seg_description : string;
  size : SegmentSize
}.

Record DirectorOutput := mkDirectorOutput {
  reasoning : string;
  segments : list OutlineSegment;
  do_num_segments : Z
}.

Record TranscriptLine := mkTranscriptLine {
  speaker : string;
  dialogue : string
}.

(** The [metadata] dictionary the writer attaches:
    [{"segment_size": ..., "num_turns": ...}]. *)
Record Metadata := mkMetadata {
  segment_size : SegmentSize;
  num_turns : Z
}.

Record WriterOutput := mkWriterOutput {
  segment_index : Z;
  segment_name : string;
  transcript : list TranscriptLine;
  metadata : option Metadata
}.

(** [AgenticPodcastWorkflow].  [wf_id] is [None] until the record is first
    saved. *)
Record AgenticPodcastWorkflow := mkWorkflow {
  wf_id : option string;
  wf_name : string;
  wf_content : option string;
  wf_notebook_id : option string;
  wf_episode_profile_name : string;
  wf_speaker_profile_name : string;
  wf_briefing : string;
  current_stage : WorkflowStage;
  status : WorkflowStatus;
  director_output : option DirectorOutput;
  writer_outputs : option (list WriterOutput);
  error_message : option string
}.

(** Field assignments [self.f = v]. *)
Definition set_stage_status (w : AgenticPodcastWorkflow)
    (st : WorkflowStage) (s : WorkflowStatus) : AgenticPodcastWorkflow :=
  mkWorkflow (wf_id w) (wf_name w) (wf_content w) (wf_notebook_id w)
    (wf_episode_profile_name w) (wf_speaker_profile_name w) (wf_briefing w)
    st s (director_output w) (writer_outputs w) (error_message w).

Definition set_error_message (w : AgenticPodcastWorkflow) (e : string)
    : AgenticPodcastWorkflow :=
  mkWorkflow (wf_id w) (wf_name w) (wf_content w) (wf_notebook_id w)
    (wf_episode_profile_name w) (wf_speaker_profile_name w) (wf_briefing w)
    (current_stage w) (status w) (director_output w) (writer_outputs w) (Some e).

Definition set_id (w : AgenticPodcastWorkflow) (i : string)
    : AgenticPodcastWorkflow :=
  mkWorkflow (Some i) (wf_name w) (wf_content w) (wf_notebook_id w)
    (wf_episode_profile_name w) (wf_speaker_profile_name w) (wf_briefing w)
    (current_stage w) (status w) (director_output w) (writer_outputs w)
    (error_message w).

(** [set_director_output]: [self.director_output = output.model_dump()]. *)
Definition set_director_output (w : AgenticPodcastWorkflow) (o : DirectorOutput)
    : AgenticPodcastWorkflow :=
  mkWorkflow (wf_id w) (wf_name w) (wf_content w) (wf_notebook_id w)
    (wf_episode_profile_name w) (wf_speaker_profile_name w) (wf_briefing w)
    (current_stage w) (status w) (Some o) (writer_outputs w) (error_message w).

(** [set_writer_outputs]: [self.writer_outputs = [w.model_dump() for w in outputs]]. *)
Definition set_writer_outputs (w : AgenticPodcastWorkflow) (os : list WriterOutput)
    : AgenticPodcastWorkflow :=
  mkWorkflow (wf_id w) (wf_name w) (wf_content w) (wf_notebook_id w)
    (wf_episode_profile_name w) (wf_speaker_profile_name w) (wf_briefing w)
    (current_stage w) (status w) (director_output w) (Some os) (error_message w).

(** [get_writer_outputs]: the stored list, [[]] when the field is [None] or
    empty. *)
Definition get_writer_outputs (w : AgenticPodcastWorkflow) : list WriterOutput :=
  match writer_outputs w with
  | Some (o :: os) => o :: os
  | _ => []
  end.

(** [get_full_transcript]: the segments' lines, in segment-index order. *)
Definition get_full_transcript (w : AgenticPodcastWorkflow) : list TranscriptLine :=
  let sorted_outputs := Py.sorted segment_index (get_writer_outputs w) in
  concat (map transcript sorted_outputs).

(** ** Segment sizing ([writer_agent], the first lines of its body) *)

Definition target_turns (sz : SegmentSize) (min_turns max_turns : Z) : Z :=
  match sz with
  | short => Z.min (Z.max min_turns 8) 15
  | medium => Z.min (Z.max min_turns 15) 25
  | long => Z.min (Z.max min_turns 20) max_turns
  end.

(** ** Exceptions, the record store and the computation monad *)

Inductive exn :=
  | HTTPException (status_code : Z) (detail : string)
  | Exception (msg : string).

(** [str(e)]. *)
Definition str_exn (e : exn) : string :=
  match e with
  | HTTPException c d => Py.str_int c ++ ": " ++ d
  | Exception m => m
  end.

(** A speaker profile entry, [Dict[str, Any]], as an association list. *)
Definition Speaker : Type := list (string * string).

(** The arguments of one call of [writer_agent]. *)
Record WriterCall := mkWriterCall {
  wc_segment : OutlineSegment;
  wc_segment_index : Z;
  wc_content : string;
  wc_briefing : string;
  wc_speakers : list Speaker;
  wc_outline_segments : list OutlineSegment;
  wc_previous_segments : option (list WriterOutput);
  wc_model_name : option string
}.

(** What a run can observe and change: the stored records, the sequence of
    records handed to [save()] (oldest first), and the calls of the writer
    agent made so far (oldest first). *)
Record World := mkWorld {
  db : gmap string AgenticPodcastWorkflow;
  saves : list AgenticPodcastWorkflow;
  writer_calls : list WriterCall
}.

Definition M (A : Type) : Type := World → (exn + A) * World.

Definition ret {A} (a : A) : M A := fun w => (inr a, w).

Definition bind {A B} (m : M A) (k : A → M B) : M B :=
  fun w =>
    match m w with
    | (inr a, w') => k a w'
    | (inl e, w') => (inl e, w')
    end.

Definition raise {A} (e : exn) : M A := fun w => (inl e, w).

(** [try: m  except Exception as e: h(e)].  The effects of [m] up to the
    point of the exception stay. *)
Definition try_except {A} (m : M A) (h : exn → M A) : M A :=
  fun w =>
    match m w with
    | (inr a, w') => (inr a, w')
    | (inl e, w') => h e w'
    end.

Declare Scope monad_scope.
Delimit Scope monad_scope with monad.
Notation "'let*' x := m 'in' k" := (bind m (fun x => k))
  (at level 10, x name, m at level 100, k at level 200) : monad_scope.
Notation "m ;;; k" := (bind m (fun _ => k))
  (at level 100, k at level 200, right associativity) : monad_scope.
Local Open Scope monad_scope.

(** [for x in xs: f(x)], collecting the results. *)
Fixpoint mapM {A B} (f : A → M B) (xs : list A) : M (list B) :=
  match xs with
  | [] => ret []
  | x :: rest => let* y := f x in let* ys := mapM f rest in ret (y :: ys)
  end.

Module Store.

(** Modelled from the spec: the record store behind [ObjectModel], whose
    module [open_notebook/domain/base.py] is outside the modelled sources.
    [get(id)] gives the record or not-found.  The store itself never fails. *)
Definition get (i : string) : M (option AgenticPodcastWorkflow) :=
  fun w => (inr (db w !! i), w).

(** Modelled from the spec: the opaque unique id assigned at creation, an id
    no stored record has. *)
Definition new_id (w : World) : string :=
  fresh_string_of_set "agentic_podcast_workflow:" (dom (db w)).

(** Modelled from the spec: [save(record)] is an upsert under the record's
    id; a record that has none gets a new one.  Every record saved is appended
    to the history. *)
Definition save (r : AgenticPodcastWorkflow) : M AgenticPodcastWorkflow :=
  fun w =>
    let i := match wf_id r with Some i => i | None => new_id w end in
    let r' := set_id r i in
    (inr r', mkWorld (<[i := r']> (db w)) (saves w ++ [r']) (writer_calls w)).

(** A method call on the result of [get]: on [None] Python raises
    [AttributeError]. *)
Definition obj (o : option AgenticPodcastWorkflow) : M AgenticPodcastWorkflow :=
  match o with
  | Some r => ret r
  | None => raise (Exception "'NoneType' object has no attribute")
  end.

(** Modelled from the spec: [delete(id)] removes the record stored under the
    record's id; a record without an id cannot be deleted. *)
Definition delete (r : AgenticPodcastWorkflow) : M unit :=
  fun w =>
    match wf_id r with
    | Some i => (inr tt, mkWorld (base.delete i (db w)) (saves w) (writer_calls w))
    | None => (inl (Exception "Cannot delete object without an ID"), w)
    end.

End Store.

(** [mark_completed], [mark_failed], [update_stage]: assign, then save. *)
Definition mark_completed (w : AgenticPodcastWorkflow) : M AgenticPodcastWorkflow :=
  Store.save (set_stage_status w stage_completed completed).

Definition mark_failed (w : AgenticPodcastWorkflow) (error_message : string)
    : M AgenticPodcastWorkflow :=
  Store.save (set_error_message (set_stage_status w stage_failed failed) error_message).

Definition update_stage (w : AgenticPodcastWorkflow) (stage : WorkflowStage)
    (st : WorkflowStatus) : M AgenticPodcastWorkflow :=
  Store.save (set_stage_status w stage st).

(** ** The two agents *)

Record DirectorPrompt := mkDirectorPrompt {
  dp_briefing : string;
  dp_context : string;
  dp_speakers : list Speaker;
  dp_num_segments : Z
}.

(** [prompt_data] of [writer_agent]. *)
Record WriterPrompt := mkWriterPrompt {
  wp_segment : OutlineSegment;
  wp_segment_index : Z;
  wp_segment_size : SegmentSize;
  wp_target_turns : Z;
  wp_briefing : string;
  wp_content : string;
  wp_speakers : list Speaker;
  wp_speaker_names : list (option string);
  wp_full_outline : list OutlineSegment;
  wp_previous_transcript : option string;
  wp_is_first_segment : bool;
  wp_is_last_segment : bool
}.

(** [s.get("name")] on a speaker dictionary. *)
Definition speaker_name (s : Speaker) : option string :=
  snd <$> List.find (fun kv => String.eqb (fst kv) "name") s.

(** The text built from the last one or two earlier segments. *)
Definition previous_transcript_text (previous_segments : option (list WriterOutput))
    : option string :=
  match previous_segments with
  | Some (p :: ps) =>
      let recent_segments := Py.last_n 2 (p :: ps) in
      let prev_lines :=
        flat_map (fun prev_seg =>
          (String "010" "[Segment: " ++ segment_name prev_seg ++ "]") ::
          map (fun line => speaker line ++ ": " ++ dialogue line) (transcript prev_seg))
          recent_segments in
      Some (Py.join (String "010" EmptyString) prev_lines)
  | _ => None
  end.

Definition writer_prompt (segment : OutlineSegment) (segment_index : Z)
    (content briefing : string) (speakers : list Speaker)
    (outline_segments : list OutlineSegment)
    (previous_segments : option (list WriterOutput))
    (min_turns max_turns : Z) : WriterPrompt :=
  mkWriterPrompt segment segment_index (size segment)
    (target_turns (size segment) min_turns max_turns)
    briefing content speakers (map speaker_name speakers) outline_segments
    (previous_transcript_text previous_segments)
    (segment_index =? 0)
    (segment_index =? Py.len outline_segments - 1).

Section Engine.

(** The generation capability: rendering the prompt, the model call and the
    decoding of its answer, for the director (reasoning and segments) and for
    the writer (the dialogue lines).  Any failure of these is an exception. *)
Variable director_llm :
  option string → DirectorPrompt → exn + (string * list OutlineSegment).
Variable writer_llm :
  option string → WriterPrompt → exn + list TranscriptLine.

(** [director_agent]; its [except] clause logs and re-raises. *)
Definition director_agent (content briefing : string) (speakers : list Speaker)
    (num_segments : Z) (model_name : option string) : M DirectorOutput :=
  match director_llm model_name
          (mkDirectorPrompt briefing content speakers num_segments) with
  | inr (r, segs) => ret (mkDirectorOutput r segs (Py.len segs))
  | inl e => raise e
  end.

(** Every call of the writer agent is recorded. *)
Definition log_writer_call (c : WriterCall) : M unit :=
  fun w => (inr tt, mkWorld (db w) (saves w) (writer_calls w ++ [c])).

(** [writer_agent]; its [except] clause logs and re-raises. *)
Definition writer_agent (segment : OutlineSegment) (segment_index : Z)
    (content briefing : string) (speakers : list Speaker)
    (outline_segments : list OutlineSegment)
    (previous_segments : option (list WriterOutput))
    (model_name : option string) (min_turns max_turns : Z) : M WriterOutput :=
  log_writer_call (mkWriterCall segment segment_index content briefing speakers
                     outline_segments previous_segments model_name) ;;;
  match writer_llm model_name
          (writer_prompt segment segment_index content briefing speakers
             outline_segments previous_segments min_turns max_turns) with
  | inr lines =>
      ret (mkWriterOutput segment_index (seg_name segment) lines
             (Some (mkMetadata (size segment) (Py.len lines))))
  | inl e => raise e
  end.

(** ** The graph ([open_notebook/graphs/agentic_podcast.py]) *)

(** [AgenticPodcastState]. *)
Record AgenticPodcastState := mkState {
  st_workflow_id : string;
  st_content : string;
  st_briefing : string;
  st_speakers : list Speaker;
  st_episode_profile_name : string;
  st_speaker_profile_name : string;
  st_num_segments : Z;
  st_outline_model : option string;
  st_transcript_model : option string;
  st_director_output : option DirectorOutput;
  st_writer_outputs : list WriterOutput;
  st_current_stage : WorkflowStage;
  st_errors : list string
}.

(** [SegmentWriterState], the payload of one [Send]. *)
Record SegmentWriterState := mkSend {
  sw_workflow_id : string;
  sw_segment : OutlineSegment;
  sw_segment_index : Z;
  sw_content : string;
  sw_briefing : string;
  sw_speakers : list Speaker;
  sw_outline_segments : list OutlineSegment;
  sw_previous_segments : list WriterOutput;
  sw_transcript_model : option string
}.

(** The dictionary a node returns: the keys it may carry.  A key that is
    absent is [None] for the plain channels and [[]] for the two channels
    reduced with [operator.add]. *)
Record Update := mkUpdate {
  u_director_output : option DirectorOutput;
  u_current_stage : option WorkflowStage;
  u_writer_outputs : list WriterOutput;
  u_errors : list string
}.

(** The reducer of [writer_outputs] and of [errors]: [operator.add] on
    lists. *)
Definition merge {A} (acc new : list A) : list A := acc ++ new.

(** Folding a node's update into the state: plain channels are overwritten,
    annotated channels go through their reducer. *)
Definition apply_update (s : AgenticPodcastState) (u : Update)
    : AgenticPodcastState :=
  mkState (st_workflow_id s) (st_content s) (st_briefing s) (st_speakers s)
    (st_episode_profile_name s) (st_speaker_profile_name s) (st_num_segments s)
    (st_outline_model s) (st_transcript_model s)
    (match u_director_output u with Some o => Some o | None => st_director_output s end)
    (merge (st_writer_outputs s) (u_writer_outputs u))
    (default (st_current_stage s) (u_current_stage u))
    (merge (st_errors s) (u_errors u)).

Definition run_director (state : AgenticPodcastState) : M Update :=
  try_except
    (let* o := Store.get (st_workflow_id state) in
     let* workflow := Store.obj o in
     let* workflow := update_stage workflow director in_progress in
     let* director_output :=
       director_agent (st_content state) (st_briefing state) (st_speakers state)
         (st_num_segments state) (st_outline_model state) in
     let* _ := Store.save (set_director_output workflow director_output) in
     ret (mkUpdate (Some director_output) (Some writer) [] []))
    (fun e =>
       let error_msg := "Director agent failed: " ++ str_exn e in
       let* o := Store.get (st_workflow_id state) in
       let* workflow := Store.obj o in
       let* _ := mark_failed workflow error_msg in
       ret (mkUpdate None (Some stage_failed) [] [error_msg])).

Definition trigger_segment_writers (state : AgenticPodcastState)
    : list SegmentWriterState :=
  match st_director_output state with
  | None => []
  | Some director_output =>
      let segments := segments director_output in
      map (fun '(i, segment) =>
             mkSend (st_workflow_id state) segment i (st_content state)
               (st_briefing state) (st_speakers state) segments []
               (st_transcript_model state))
          (Py.enumerate segments)
  end.

Definition write_segment (state : SegmentWriterState) : M Update :=
  let index := sw_segment_index state in
  let segment := sw_segment state in
  try_except
    (let* o := Store.get (sw_workflow_id state) in
     let* workflow := Store.obj o in
     let previous_outputs :=
       match writer_outputs workflow with
       | Some (_ :: _) => get_writer_outputs workflow
       | _ => []
       end in
     let previous_segments :=
       List.filter (fun w => segment_index w <? index) previous_outputs in
     let* writer_output :=
       writer_agent segment index (sw_content state) (sw_briefing state)
         (sw_speakers state) (sw_outline_segments state)
         (match previous_segments with [] => None | _ => Some previous_segments end)
         (sw_transcript_model state) 10 30 in
     ret (mkUpdate None None [writer_output] []))
    (fun e =>
       let error_msg :=
         "Writer agent failed for segment " ++ Py.str_int index
           ++ ": " ++ str_exn e in
       ret (mkUpdate None None [] [error_msg])).

Definition save_workflow (state : AgenticPodcastState) : M Update :=
  try_except
    (let* o := Store.get (st_workflow_id state) in
     match st_errors state with
     | _ :: _ =>
         let error_msg := Py.join "; " (st_errors state) in
         let* workflow := Store.obj o in
         let* _ := mark_failed workflow error_msg in
         ret (mkUpdate None (Some stage_failed) [] [])
     | [] =>
         match st_writer_outputs state with
         | [] =>
             let error_msg := "No writer outputs generated" in
             let* workflow := Store.obj o in
             let* _ := mark_failed workflow error_msg in
             ret (mkUpdate None (Some stage_failed) [] [error_msg])
         | writer_outputs =>
             let sorted_outputs := Py.sorted segment_index writer_outputs in
             let* workflow := Store.obj o in
             let workflow := set_writer_outputs workflow sorted_outputs in
             let* _ := mark_completed workflow in
             ret (mkUpdate None (Some stage_completed) [] [])
         end
     end)
    (fun e =>
       let error_msg := "Failed to save workflow: " ++ str_exn e in
       let* _ :=
         try_except
           (let* o := Store.get (st_workflow_id state) in
            let* workflow := Store.obj o in
            let* _ := mark_failed workflow error_msg in
            ret tt)
           (fun _ => ret tt) in
       ret (mkUpdate None (Some stage_failed) [] [error_msg])).

(** The order in which the results of the concurrent [write_segment] tasks
    reach the accumulator.  The tasks only read the store, so running them
    one after the other in arrival order is every interleaving there is. *)
Variable arrival : list SegmentWriterState → list SegmentWriterState.

(** [build_agentic_podcast_graph] and its execution by [ainvoke]:
    START, [run_director], the conditional fan-out of
    [trigger_segment_writers] to [write_segment], then [save_workflow], END.
    With no [Send] the conditional edge leads nowhere and the run ends after
    [run_director]. *)
Definition ainvoke (initial_state : AgenticPodcastState) : M AgenticPodcastState :=
  let* u := run_director initial_state in
  let s1 := apply_update initial_state u in
  match trigger_segment_writers s1 with
  | [] => ret s1
  | sends =>
      let* us := mapM write_segment (arrival sends) in
      let s2 := foldl apply_update s1 us in
      let* u := save_workflow s2 in
      ret (apply_update s2 u)
  end.

Definition initial_state (workflow_id content briefing : string)
    (speakers : list Speaker) (episode_profile_name speaker_profile_name : string)
    (num_segments : Z) (outline_model transcript_model : option string)
    : AgenticPodcastState :=
  mkState workflow_id content briefing speakers episode_profile_name
    speaker_profile_name num_segments outline_model transcript_model
    None [] director [].

Definition run_agentic_podcast_workflow (workflow_id content briefing : string)
    (speakers : list Speaker) (episode_profile_name speaker_profile_name : string)
    (num_segments : Z) (outline_model transcript_model : option string)
    : M (option AgenticPodcastWorkflow) :=
  try_except
    (let* final_state :=
       ainvoke (initial_state workflow_id content briefing speakers
                  episode_profile_name speaker_profile_name num_segments
                  outline_model transcript_model) in
     Store.get workflow_id)
    (fun e =>
       let* _ :=
         try_except
           (let* o := Store.get workflow_id in
            let* workflow := Store.obj o in
            let* _ := mark_failed workflow (str_exn e) in
            ret tt)
           (fun _ => ret tt) in
       raise e).

(** ** The service layer ([api/agentic_podcast_service.py]) *)

(** The fields of the episode and speaker profiles the service reads
    ([open_notebook/domain/podcast.py]). *)
Record EpisodeProfile := mkEpisodeProfile {
  ep_name : string;
  ep_speaker_config : string;
  ep_default_briefing : string;
  ep_num_segments : Z;
  ep_outline_model : option string;
  ep_transcript_model : option string
}.

Record SpeakerProfile := mkSpeakerProfile {
  sp_name : string;
  sp_speakers : list Speaker
}.

Record AgenticWorkflowRequest := mkRequest {
  rq_episode_profile : string;
  rq_episode_name : string;
  rq_content : option string;
  rq_notebook_id : option string;
  rq_briefing_suffix : option string;
  rq_num_segments : option Z
}.

Record AgenticWorkflowResponse := mkResponse {
  rs_workflow_id : string;
  rs_name : string;
  rs_status : WorkflowStatus;
  rs_current_stage : WorkflowStage;
  rs_episode_profile : string;
  rs_speaker_profile : string;
  rs_message : option string
}.

Record TranscriptResponse := mkTranscriptResponse {
  tr_workflow_id : string;
  tr_episode_name : string;
  tr_transcript : list (list (string * string));
  tr_total_turns : Z
}.

(** The collaborators of the service: the two profile tables and the
    content resolver [_gather_notebook_content], which reads the notebook,
    its sources and its notes and either returns their text or raises. *)
Variable EpisodeProfile_get_by_name : string → option EpisodeProfile.
Variable SpeakerProfile_get_by_name : string → option SpeakerProfile.
Variable gather_notebook_content : string → exn + string.

(** [str(workflow.id)]. *)
Definition str_id (w : AgenticPodcastWorkflow) : string :=
  default "None" (wf_id w).

Definition build_briefing (episode_name base_briefing : string)
    (briefing_suffix : option string) : string :=
  let briefing :=
    Py.strip ("Episode: " ++ episode_name ++ String "010" (String "010" base_briefing)) in
  match briefing_suffix with
  | Some sfx =>
      match Py.strip sfx with
      | EmptyString => briefing
      | stripped =>
          briefing ++ String "010" (String "010" "Additional instructions:")
            ++ String "010" stripped
      end
  | None => briefing
  end.

(** [try: m  except HTTPException: raise  except Exception as e: raise
    HTTPException(500, prefix + str(e))]. *)
Definition http_guard {A} (prefix : string) (m : M A) : M A :=
  try_except m
    (fun e =>
       match e with
       | HTTPException _ _ => raise e
       | Exception _ => raise (HTTPException 500 (prefix ++ str_exn e))
       end).

Definition create_workflow (request : AgenticWorkflowRequest)
    : M AgenticWorkflowResponse :=
  http_guard "Failed to create workflow: "
    (match EpisodeProfile_get_by_name (rq_episode_profile request) with
     | None =>
         raise (HTTPException 404
                  ("Episode profile '" ++ rq_episode_profile request ++ "' not found"))
     | Some episode_profile =>
     match SpeakerProfile_get_by_name (ep_speaker_config episode_profile) with
     | None =>
         raise (HTTPException 404
                  ("Speaker profile '" ++ ep_speaker_config episode_profile
                     ++ "' not found"))
     | Some speaker_profile =>
         let* content :=
           if Py.truthy_str (rq_content request)
           then ret (default EmptyString (rq_content request))
           else if Py.truthy_str (rq_notebook_id request)
           then match gather_notebook_content
                        (default EmptyString (rq_notebook_id request)) with
                | inr c => ret c
                | inl e => raise e
                end
           else raise (HTTPException 400
                         "Either 'content' or 'notebook_id' must be provided") in
         let briefing :=
           build_briefing (rq_episode_name request)
             (ep_default_briefing episode_profile) (rq_briefing_suffix request) in
         let num_segments :=
           match rq_num_segments request with
           | Some n => if n =? 0 then ep_num_segments episode_profile else n
           | None => ep_num_segments episode_profile
           end in
         let* workflow :=
           Store.save
             (mkWorkflow None (rq_episode_name request) (Some content)
                (rq_notebook_id request) (ep_name episode_profile)
                (sp_name speaker_profile) briefing director pending
                None None None) in
         try_except
           (let* o :=
              run_agentic_podcast_workflow (str_id workflow) content briefing
                (sp_speakers speaker_profile) (ep_name episode_profile)
                (sp_name speaker_profile) num_segments
                (ep_outline_model episode_profile)
                (ep_transcript_model episode_profile) in
            let* completed_workflow := Store.obj o in
            ret (mkResponse (str_id completed_workflow)
                   (wf_name completed_workflow) (status completed_workflow)
                   (current_stage completed_workflow) (ep_name episode_profile)
                   (sp_name speaker_profile)
                   (Some (match status completed_workflow with
                          | completed => "Workflow completed successfully"
                          | _ => "Workflow failed: "
                                   ++ default "None" (error_message completed_workflow)
                          end))))
           (fun e =>
              let* _ := mark_failed workflow (str_exn e) in
              raise (HTTPException 500
                       ("Workflow execution failed: " ++ str_exn e)))
     end
     end).

Definition get_transcript (workflow_id : string) : M TranscriptResponse :=
  http_guard "Failed to get transcript: "
    (let* o := Store.get workflow_id in
     match o with
     | None => raise (HTTPException 404 "Workflow not found")
     | Some workflow =>
         match status workflow with
         | completed =>
             let transcript := get_full_transcript workflow in
             ret (mkTranscriptResponse (str_id workflow) (wf_name workflow)
                    (map (fun line => [("speaker", speaker line);
                                       ("dialogue", dialogue line)]) transcript)
                    (Py.len transcript))
         | s =>
             raise (HTTPException 400
                      ("Workflow is not completed (status: " ++ str_status s ++ ")"))
         end
     end).

(** ** Vocabulary of the statements *)

(** What a writing task launched on a record without stored writer outputs
    asks of the generation capability, and what it gets. *)
Definition task_result (s : SegmentWriterState) : exn + list TranscriptLine :=
  writer_llm (sw_transcript_model s)
    (writer_prompt (sw_segment s) (sw_segment_index s) (sw_content s)
       (sw_briefing s) (sw_speakers s) (sw_outline_segments s) None 10 30).

(** The error a failed task reports, tagged with its segment index. *)
Definition task_error (s : SegmentWriterState) : option string :=
  match task_result s with
  | inl e =>
      Some ("Writer agent failed for segment " ++ Py.str_int (sw_segment_index s)
              ++ ": " ++ str_exn e)
  | inr _ => None
  end.

(** The output a successful task returns. *)
Definition task_output (s : SegmentWriterState) : option WriterOutput :=
  match task_result s with
  | inr lines =>
      Some (mkWriterOutput (sw_segment_index s) (seg_name (sw_segment s)) lines
              (Some (mkMetadata (size (sw_segment s)) (Py.len lines))))
  | inl _ => None
  end.

(** What a task reports back to the accumulator. *)
Definition task_update (s : SegmentWriterState) : Update :=
  mkUpdate None None (option_list (task_output s)) (option_list (task_error s)).

(** The writing tasks of a plan, in plan order. *)
Definition plan_tasks (workflow_id content briefing : string)
    (speakers : list Speaker) (transcript_model : option string)
    (segments : list OutlineSegment) : list SegmentWriterState :=
  map (fun '(i, segment) =>
         mkSend workflow_id segment i content briefing speakers segments []
           transcript_model)
      (Py.enumerate segments).

End Engine.

(** ** The rest of the service layer *)

Record AgenticWorkflowDetailResponse := mkDetailResponse {
  dr_workflow_id : string;
  dr_name : string;
  dr_status : WorkflowStatus;
  dr_current_stage : WorkflowStage;
  dr_episode_profile : string;
  dr_speaker_profile : string;
  dr_briefing : string;
  dr_created : option string;
  dr_updated : option string;
  dr_director_output : option DirectorOutput;
  dr_writer_outputs : option (list WriterOutput);
  dr_error_message : option string
}.

(** What [_gather_notebook_content] reads of a notebook: its name, its
    description, and the outcome of [get_sources()] and of [get_notes()] (the
    ids of the stubs, or the exception raised). *)
Record Notebook := mkNotebook {
  nb_name : string;
  nb_description : option string;
  nb_get_sources : exn + list string;
  nb_get_notes : exn + list string
}.

(** What it reads of a source ([title], [full_text]) or of a note ([title],
    [content]); an attribute that is missing is [None]. *)
Record Item := mkItem {
  item_title : option string;
  item_text : option string
}.

Section Reads.

(** The timestamps of a record in ISO format ([created], [updated]), kept by
    [ObjectModel]. *)
Variable created_iso : AgenticPodcastWorkflow → option string.
Variable updated_iso : AgenticPodcastWorkflow → option string.

Definition get_workflow (workflow_id : string) : M AgenticWorkflowDetailResponse :=
  http_guard "Failed to get workflow: "
    (let* o := Store.get workflow_id in
     match o with
     | None => raise (HTTPException 404 "Workflow not found")
     | Some workflow =>
         ret (mkDetailResponse (str_id workflow) (wf_name workflow)
                (status workflow) (current_stage workflow)
                (wf_episode_profile_name workflow)
                (wf_speaker_profile_name workflow) (wf_briefing workflow)
                (created_iso workflow) (updated_iso workflow)
                (director_output workflow) (writer_outputs workflow)
                (error_message workflow))
     end).

End Reads.

Definition delete_workflow (workflow_id : string) : M (list (string * string)) :=
  http_guard "Failed to delete workflow: "
    (let* o := Store.get workflow_id in
     match o with
     | None => raise (HTTPException 404 "Workflow not found")
     | Some workflow =>
         let* _ := Store.delete workflow in
         ret [("message", "Workflow deleted successfully")]
     end).

Section Gather.

(** The notebook, source and note tables: a lookup gives the object, [None],
    or raises. *)
Variable Notebook_get : string → exn + option Notebook.
Variable Source_get : string → exn + option Item.
Variable Note_get : string → exn + option Item.

(** One block of the text: [f"\n## {label}: {title}\n\n{excerpt}\n"]. *)
Definition item_block (label : string) (max_chars_per_item : Z) (it : Item) : string :=
  let title := Py.or_str (item_title it) "(untitled)" in
  let text := Py.or_str (item_text it) EmptyString in
  let excerpt := Py.slice_to max_chars_per_item text in
  String "010" ("## " ++ label ++ ": " ++ title)
    ++ String "010" (String "010" excerpt) ++ String "010" EmptyString.

(** The loop over the stubs: it stops at the first stub met with the budget
    used up, and skips a stub whose object is missing or fails to load. *)
Fixpoint gather_items (get : string → exn + option Item) (label : string)
    (max_chars_total max_chars_per_item : Z) (stubs : list string)
    (parts : list string) (total : Z) : list string * Z :=
  match stubs with
  | [] => (parts, total)
  | stub :: rest =>
      if max_chars_total <=? total then (parts, total)
      else
        match get stub with
        | inr (Some it) =>
            let block := item_block label max_chars_per_item it in
            gather_items get label max_chars_total max_chars_per_item rest
              (parts ++ [block]) (total + Py.len_str block)
        | _ =>
            gather_items get label max_chars_total max_chars_per_item rest
              parts total
        end
  end.

(** [try: stubs = listing(); for ...  except: warn]. *)
Definition gather_listing (get : string → exn + option Item) (label : string)
    (max_chars_total max_chars_per_item : Z) (listing : exn + list string)
    (parts : list string) (total : Z) : list string * Z :=
  match listing with
  | inr stubs =>
      gather_items get label max_chars_total max_chars_per_item stubs parts total
  | inl _ => (parts, total)
  end.

Definition notebook_header (notebook : Notebook) : string :=
  "# " ++ nb_name notebook ++ String "010" (String "010"
    (Py.or_str (nb_description notebook) EmptyString))
    ++ String "010" (String "010" EmptyString).

(** The joined parts, before the final [strip()]. *)
Definition gathered_parts (notebook : Notebook)
    (max_chars_total max_chars_per_item : Z) : list string * Z :=
  let header := notebook_header notebook in
  let '(parts, total) :=
    gather_listing Source_get "Source" max_chars_total max_chars_per_item
      (nb_get_sources notebook) [header] (Py.len_str header) in
  gather_listing Note_get "Note" max_chars_total max_chars_per_item
    (nb_get_notes notebook) parts total.

Definition _gather_notebook_content (notebook_id : string)
    (max_chars_total max_chars_per_item : Z) : exn + string :=
  match Notebook_get notebook_id with
  | inl e => inl e
  | inr None => inl (HTTPException 404 "Notebook not found")
  | inr (Some notebook) =>
      inr (Py.strip (Py.join EmptyString
                       (fst (gathered_parts notebook max_chars_total
                               max_chars_per_item))))
  end.

End Gather.

(** ** More vocabulary of the statements *)

(** Two records with the same identity and configuration. *)
Definition same_config (r r0 : AgenticPodcastWorkflow) : Prop :=
  wf_id r = wf_id r0 ∧ wf_name r = wf_name r0 ∧ wf_content r = wf_content r0 ∧
  wf_notebook_id r = wf_notebook_id r0 ∧
  wf_episode_profile_name r = wf_episode_profile_name r0 ∧
  wf_speaker_profile_name r = wf_speaker_profile_name r0 ∧
  wf_briefing r = wf_briefing r0.

(** An exception of the HTTP layer. *)
Definition is_http (e : exn) : Prop :=
  match e with HTTPException _ _ => True | Exception _ => False end.

(** The title a block shows for an item. *)
Definition shown_title (it : Item) : string :=
  Py.or_str (item_title it) "(untitled)".

(** A string that begins or ends with white space. *)
Definition starts_with_space (s : string) : Prop :=
  match s with String c _ => Py.isspace c = true | EmptyString => False end.

(** The call of the writer agent a task makes when it is given no previous
    segments. *)
Definition task_call (s : SegmentWriterState) : WriterCall :=
  mkWriterCall (sw_segment s) (sw_segment_index s) (sw_content s) (sw_briefing s)
    (sw_speakers s) (sw_outline_segments s) None (sw_transcript_model s).

(** The record after [mark_failed(msg)] and after [mark_completed()]. *)
Definition failed_with (r : AgenticPodcastWorkflow) (msg : string)
    : AgenticPodcastWorkflow :=
  set_error_message (set_stage_status r stage_failed failed) msg.

Definition completed_with (r : AgenticPodcastWorkflow) (outs : list WriterOutput)
    : AgenticPodcastWorkflow :=
  set_stage_status (set_writer_outputs r outs) stage_completed completed.

(** The record the join step stores, given the planned record and the
    accumulated errors and outputs. *)
Definition joined_record (r : AgenticPodcastWorkflow) (errs : list string)
    (outs : list WriterOutput) : AgenticPodcastWorkflow :=
  match errs, outs with
  | _ :: _, _ => failed_with r (Py.join "; " errs)
  | [], [] => failed_with r "No writer outputs generated"
  | [], _ :: _ => completed_with r (Py.sorted segment_index outs)
  end.

(** [clamp(x, lo, hi)]: [x] brought into the interval from [lo] to [hi]. *)
Definition clamp (x lo hi : Z) : Z :=
  if x <? lo then lo else if hi <? x then hi else x.

(** The order on records that sorting by a key produces. *)
Definition key_le {A} (key : A → Z) (x y : A) : Prop := key x <= key y.

(** A record as [create_workflow] stores it before the run: stored under its
    own id, at (director, pending), with no plan, outputs or error. *)
Definition fresh_record (w : World) (workflow_id : string)
    (r : AgenticPodcastWorkflow) : Prop :=
  db w !! workflow_id = Some r ∧ wf_id r = Some workflow_id ∧
  current_stage r = director ∧ status r = pending ∧
  director_output r = None ∧ writer_outputs r = None ∧ error_message r = None.

(** The two end states. *)
Definition terminal (r : AgenticPodcastWorkflow) : Prop :=
  status r = completed ∨ status r = failed.

(** Stage and status agree on the end states. *)
Definition stage_status_agree (r : AgenticPodcastWorkflow) : Prop :=
  (current_stage r = stage_completed ↔ status r = completed) ∧
  (current_stage r = stage_failed ↔ status r = failed).

(** The arrival order is a reordering of the launched tasks. *)
Definition reorders {A} (arrival : list A → list A) : Prop :=
  ∀ l, arrival l ≡ₚ l.

(** ** Example data

    A three-segment plan (short, medium, long) with stub generation
    capabilities, and a record as creation leaves it. *)

Module Ex.

Definition workflow_id : string := "agentic_podcast_workflow:ep1".

Definition speakers : list Speaker :=
  [[("name", "Ana"); ("role", "host")]; [("name", "Ben"); ("role", "guest")]].

Definition plan : list OutlineSegment :=
  [mkOutlineSegment "Intro" "what the episode is about" short;
   mkOutlineSegment "Deep dive" "the main argument" medium;
   mkOutlineSegment "Wrap-up" "what to remember" long].

(** A director that returns the plan, and one that is down. *)
Definition director_stub (model : option string) (p : DirectorPrompt)
    : exn + (string * list OutlineSegment) :=
  inr ("three acts", plan).

Definition director_down (model : option string) (p : DirectorPrompt)
    : exn + (string * list OutlineSegment) :=
  inl (Exception "model unavailable").

(** A writer that returns 10, 18 and 22 turns for the three sizes, and one
    that fails on segment 1 only. *)
Definition writer_stub (model : option string) (p : WriterPrompt)
    : exn + list TranscriptLine :=
  inr (replicate
         (match wp_segment_size p with short => 10 | medium => 18 | long => 22 end)
         (mkTranscriptLine "Ana" (seg_name (wp_segment p)))).

Definition writer_failing_on_1 (model : option string) (p : WriterPrompt)
    : exn + list TranscriptLine :=
  if wp_segment_index p =? 1 then inl (Exception "timeout") else writer_stub model p.

(** Results arrive in the reverse of the launch order. *)
Definition arrival (l : list SegmentWriterState) : list SegmentWriterState := rev l.

Definition record : AgenticPodcastWorkflow :=
  mkWorkflow (Some workflow_id) "Episode 1" (Some "source text") None
    "tech" "duo" "Episode: Episode 1" director pending None None None.

Definition world : World := mkWorld {[ workflow_id := record ]} [] [].

(** The three outputs a full run stores. *)
Definition out_a : WriterOutput :=
  mkWriterOutput 0 "Intro" [mkTranscriptLine "Ana" "Hello"] None.
Definition out_b : WriterOutput :=
  mkWriterOutput 1 "Deep dive" [mkTranscriptLine "Ben" "Indeed"] None.
Definition out_c : WriterOutput :=
  mkWriterOutput 2 "Wrap-up" [mkTranscriptLine "Ana" "Goodbye"] None.

(** A completed record, and a failed one that still holds writer outputs. *)
Definition completed_record : AgenticPodcastWorkflow :=
  mkWorkflow (Some workflow_id) "Episode 1" (Some "source text") None
    "tech" "duo" "Episode: Episode 1" stage_completed completed
    (Some (mkDirectorOutput "three acts" plan 3)) (Some [out_a; out_b; out_c]) None.

Definition completed_world : World :=
  mkWorld {[ workflow_id := completed_record ]} [] [].

Definition failed_record_with_outputs : AgenticPodcastWorkflow :=
  mkWorkflow (Some workflow_id) "Episode 1" (Some "source text") None
    "tech" "duo" "Episode: Episode 1" stage_failed failed
    (Some (mkDirectorOutput "three acts" plan 3)) (Some [out_a; out_c])
    (Some "Writer agent failed for segment 1: timeout").

Definition failed_world : World :=
  mkWorld {[ workflow_id := failed_record_with_outputs ]} [] [].

(** The collaborators of the service and three creation requests. *)
Definition episode_profiles (name : string) : option EpisodeProfile :=
  if String.eqb name "tech"
  then Some (mkEpisodeProfile "tech" "duo" "Keep it light." 3 None None)
  else None.

Definition speaker_profiles (name : string) : option SpeakerProfile :=
  if String.eqb name "duo" then Some (mkSpeakerProfile "duo" speakers) else None.

Definition gather (notebook_id : string) : exn + string :=
  inr "# Notebook".

Definition empty_world : World := mkWorld ∅ [] [].

Definition request_both : AgenticWorkflowRequest :=
  mkRequest "tech" "Episode 1" (Some "source text") (Some "notebook:1") None None.

Definition request_neither : AgenticWorkflowRequest :=
  mkRequest "tech" "Episode 1" None None None None.

Definition request_content : AgenticWorkflowRequest :=
  mkRequest "tech" "Episode 1" (Some "source text") None None None.

End Ex.

(** * Properties *)

(** ** Sorting by segment index *)

Section SortedFacts.
Context {A : Type} (key : A → Z).

#[local] Abbreviation key_le := (key_le key).

Lemma insert_by_perm x l : Py.insert_by key x l ≡ₚ x :: l.
Proof.
  induction l as [|y l IH]; simpl; [done|].
  destruct (key x <? key y); [done|].
  rewrite IH. apply Permutation_swap.
Qed.

Lemma sorted_perm l : Py.sorted key l ≡ₚ l.
Proof.
  unfold Py.sorted.
  enough (∀ acc, foldl (fun acc x => Py.insert_by key x acc) acc l ≡ₚ acc ++ l) as H
    by apply (H []).
  induction l as [|x l IH]; intros acc; simpl.
  - by rewrite app_nil_r.
  - rewrite IH, insert_by_perm. simpl. apply Permutation_middle.
Qed.

Lemma insert_by_sorted x l :
  Sorted key_le l → Sorted key_le (Py.insert_by key x l).
Proof.
  induction 1 as [|y l Hl IH Hhd]; simpl.
  - repeat constructor.
  - destruct (Z.ltb_spec (key x) (key y)) as [Hlt|Hge].
    + constructor; [by constructor|]. constructor. unfold key_le. lia.
    + constructor; [done|].
      destruct Hhd as [|z l' Hyz]; simpl.
      * by constructor.
      * destruct (key x <? key z); by constructor.
Qed.

Lemma sorted_sorted l : Sorted key_le (Py.sorted key l).
Proof.
  unfold Py.sorted.
  enough (∀ acc, Sorted key_le acc →
            Sorted key_le (foldl (fun acc x => Py.insert_by key x acc) acc l)) as H
    by (apply H; constructor).
  induction l as [|x l IH]; intros acc Hacc; simpl; [done|].
  by apply IH, insert_by_sorted.
Qed.

#[local] Instance key_le_trans : Transitive key_le.
Proof. unfold key_le. intros x y z ??. lia. Qed.

(** Two lists with the same elements, on which the key is injective, sort
    to the same list. *)
Lemma sorted_perm_eq l1 l2 :
  l1 ≡ₚ l2 → NoDup (map key l1) → Py.sorted key l1 = Py.sorted key l2.
Proof.
  intros Hp Hnd.
  apply (Sorted_unique_strong key_le); [|apply sorted_sorted..|].
  - intros x1 x2 Hx1 Hx2 H12 H21.
    assert (key x1 = key x2) as Hk by (unfold key_le in *; lia).
    rewrite sorted_perm in Hx1. rewrite sorted_perm, <- Hp in Hx2.
    clear -Hnd Hx1 Hx2 Hk.
    induction l1 as [|y l IH]; [by inv Hx1|].
    simpl in Hnd. apply NoDup_cons in Hnd as [Hy Hnd].
    inv Hx1; inv Hx2; [done| | |by apply IH].
    + exfalso. apply Hy. rewrite Hk. by apply list_elem_of_fmap_2.
    + exfalso. apply Hy. rewrite <- Hk. by apply list_elem_of_fmap_2.
  - by rewrite !sorted_perm.
Qed.

(** A list already in strictly increasing key order is left as it is. *)
Lemma sorted_id l :
  Sorted (fun x y => key x < key y) l → Py.sorted key l = l.
Proof.
  intros Hs.
  assert (Transitive (fun x y : A => key x < key y)) as Htr
    by (intros x y z ??; lia).
  apply Sorted_StronglySorted in Hs; [|done].
  apply (Sorted_unique_strong key_le); [|apply sorted_sorted| |apply sorted_perm].
  - intros x1 x2 Hx1 Hx2 H12 H21.
    assert (key x1 = key x2) as Hk by (unfold key_le in *; lia).
    rewrite sorted_perm in Hx1.
    clear -Hs Hx1 Hx2 Hk.
    induction Hs as [|y l Hl IH Hall]; [by inv Hx1|].
    rewrite Forall_forall in Hall.
    inv Hx1; inv Hx2; [done| | |by apply IH].
    + match goal with H : _ ∈ l |- _ => apply Hall in H end. lia.
    + match goal with H : _ ∈ l |- _ => apply Hall in H end. lia.
  - clear -Hs. induction Hs as [|y l Hl IH Hall]; [constructor|].
    constructor; [done|]. destruct l; constructor.
    apply Forall_cons in Hall as [? _]. unfold key_le. lia.
Qed.

End SortedFacts.

(** ** Stepping through the monad *)

Lemma bind_ok {A B} (m : M A) (k : A → M B) w a w' :
  m w = (inr a, w') → bind m k w = k a w'.
Proof. unfold bind. by intros ->. Qed.

Lemma bind_err {A B} (m : M A) (k : A → M B) w e w' :
  m w = (inl e, w') → bind m k w = (inl e, w').
Proof. unfold bind. by intros ->. Qed.

Lemma try_except_ok {A} (m : M A) h w a w' :
  m w = (inr a, w') → try_except m h w = (inr a, w').
Proof. unfold try_except. by intros ->. Qed.

Lemma try_except_err {A} (m : M A) h w e w' :
  m w = (inl e, w') → try_except m h w = h e w'.
Proof. unfold try_except. by intros ->. Qed.

Lemma bind_ret {A B} (a : A) (k : A → M B) w : bind (ret a) k w = k a w.
Proof. done. Qed.

Lemma set_id_same r i : wf_id r = Some i → set_id r i = r.
Proof. destruct r; simpl; by intros ->. Qed.

Lemma get_eq w i : Store.get i w = (inr (db w !! i), w).
Proof. done. Qed.

Lemma save_stored r i w :
  wf_id r = Some i →
  Store.save r w =
    (inr r, mkWorld (<[i := r]> (db w)) (saves w ++ [r]) (writer_calls w)).
Proof. intros Hi. unfold Store.save. rewrite Hi. by rewrite (set_id_same _ _ Hi). Qed.

Section EngineFacts.
Context (director_llm : option string → DirectorPrompt → exn + (string * list OutlineSegment)).
Context (writer_llm : option string → WriterPrompt → exn + list TranscriptLine).
Context (arrival : list SegmentWriterState → list SegmentWriterState).

#[local] Abbreviation run_director' := (run_director director_llm).
#[local] Abbreviation write_segment' := (write_segment writer_llm).
#[local] Abbreviation ainvoke' := (ainvoke director_llm writer_llm arrival).
#[local] Abbreviation run' := (run_agentic_podcast_workflow director_llm writer_llm arrival).
#[local] Abbreviation task_result' := (task_result writer_llm).
#[local] Abbreviation task_error' := (task_error writer_llm).
#[local] Abbreviation task_output' := (task_output writer_llm).

(** *** The planning step *)

Lemma run_director_ok state w r reasoning segs :
  db w !! st_workflow_id state = Some r →
  wf_id r = Some (st_workflow_id state) →
  director_llm (st_outline_model state)
    (mkDirectorPrompt (st_briefing state) (st_content state) (st_speakers state)
       (st_num_segments state)) = inr (reasoning, segs) →
  let r1 := set_stage_status r director in_progress in
  let out := mkDirectorOutput reasoning segs (Py.len segs) in
  let r2 := set_director_output r1 out in
  run_director' state w =
    (inr (mkUpdate (Some out) (Some writer) [] []),
     mkWorld (<[st_workflow_id state := r2]> (db w)) (saves w ++ [r1; r2])
       (writer_calls w)).
Proof.
  intros Hdb Hid Hllm r1 out r2.
  unfold run_director. apply try_except_ok.
  rewrite (bind_ok _ _ _ _ _ (get_eq _ _)), Hdb. simpl.
  rewrite bind_ret. unfold update_stage.
  erewrite bind_ok; [|apply save_stored; exact Hid].
  unfold director_agent. rewrite Hllm. rewrite bind_ret.
  erewrite bind_ok; [|apply save_stored; exact Hid].
  unfold ret. simpl. by rewrite insert_insert_eq, <- app_assoc.
Qed.

Lemma mark_failed_stored r i msg w :
  wf_id r = Some i →
  mark_failed r msg w =
    (inr (failed_with r msg),
     mkWorld (<[i := failed_with r msg]> (db w)) (saves w ++ [failed_with r msg])
       (writer_calls w)).
Proof. intros Hi. unfold mark_failed. by apply save_stored. Qed.

Lemma run_director_fail state w r e :
  db w !! st_workflow_id state = Some r →
  wf_id r = Some (st_workflow_id state) →
  director_llm (st_outline_model state)
    (mkDirectorPrompt (st_briefing state) (st_content state) (st_speakers state)
       (st_num_segments state)) = inl e →
  let r1 := set_stage_status r director in_progress in
  let msg := "Director agent failed: " ++ str_exn e in
  run_director' state w =
    (inr (mkUpdate None (Some stage_failed) [] [msg]),
     mkWorld (<[st_workflow_id state := failed_with r1 msg]> (db w))
       (saves w ++ [r1; failed_with r1 msg]) (writer_calls w)).
Proof.
  intros Hdb Hid Hllm r1 msg.
  unfold run_director. erewrite try_except_err; cycle 1.
  { rewrite (bind_ok _ _ _ _ _ (get_eq _ _)), Hdb. simpl.
    rewrite bind_ret. unfold update_stage.
    erewrite bind_ok; [|apply save_stored; exact Hid].
    unfold director_agent. rewrite Hllm. reflexivity. }
  rewrite (bind_ok _ _ _ _ _ (get_eq _ _)). simpl.
  rewrite lookup_insert_eq. simpl. rewrite bind_ret.
  erewrite bind_ok; [|apply mark_failed_stored; exact Hid].
  unfold ret. simpl. by rewrite insert_insert_eq, <- app_assoc.
Qed.

(** *** The writing tasks *)

Lemma write_segment_fresh s w r :
  db w !! sw_workflow_id s = Some r →
  writer_outputs r = None →
  write_segment' s w =
    (inr (task_update writer_llm s),
     mkWorld (db w) (saves w) (writer_calls w ++ [task_call s])).
Proof.
  intros Hdb Hnone.
  unfold write_segment, task_update, task_output, task_error, task_result.
  unfold try_except.
  rewrite (bind_ok _ _ _ _ _ (get_eq _ _)), Hdb. simpl.
  rewrite bind_ret, Hnone. simpl.
  unfold writer_agent, bind, log_writer_call. simpl.
  by destruct (writer_llm _ _).
Qed.

Lemma mapM_write_segment wid l w r :
  Forall (fun s => sw_workflow_id s = wid) l →
  db w !! wid = Some r →
  writer_outputs r = None →
  mapM write_segment' l w =
    (inr (map (task_update writer_llm) l),
     mkWorld (db w) (saves w) (writer_calls w ++ map task_call l)).
Proof.
  intros Hall. revert w.
  induction Hall as [|s l Hs Hl IH]; intros w Hdb Hnone; simpl.
  - unfold ret. rewrite app_nil_r. by destruct w.
  - subst wid. erewrite bind_ok; [|by eapply write_segment_fresh].
    erewrite bind_ok; [|by eapply IH].
    unfold ret. simpl. by rewrite <- app_assoc.
Qed.

Lemma foldl_task_updates s l :
  foldl apply_update s (map (task_update writer_llm) l) =
    mkState (st_workflow_id s) (st_content s) (st_briefing s) (st_speakers s)
      (st_episode_profile_name s) (st_speaker_profile_name s) (st_num_segments s)
      (st_outline_model s) (st_transcript_model s) (st_director_output s)
      (st_writer_outputs s ++ omap task_output' l)
      (st_current_stage s)
      (st_errors s ++ omap task_error' l).
Proof.
  revert s. induction l as [|t l IH]; intros s; simpl.
  - rewrite !app_nil_r. by destruct s.
  - rewrite IH. unfold apply_update, merge, task_update. simpl.
    f_equal; rewrite <- app_assoc; f_equal;
      unfold task_output, task_error; by destruct (task_result _ _).
Qed.

(** *** The join *)

Lemma save_workflow_joined state w r :
  db w !! st_workflow_id state = Some r →
  wf_id r = Some (st_workflow_id state) →
  let r' := joined_record r (st_errors state) (st_writer_outputs state) in
  ∃ u, u_writer_outputs u = [] ∧ u_director_output u = None ∧
    save_workflow state w =
      (inr u, mkWorld (<[st_workflow_id state := r']> (db w)) (saves w ++ [r'])
                (writer_calls w)).
Proof.
  intros Hdb Hid r'. subst r'.
  unfold save_workflow, joined_record.
  destruct (st_errors state) as [|e es], (st_writer_outputs state) as [|o os].
  all: eexists; split; [|split]; cycle 2.
  all: try (apply try_except_ok;
       rewrite (bind_ok _ _ _ _ _ (get_eq _ _)), Hdb; simpl;
       rewrite bind_ret;
       first [ erewrite bind_ok; [|apply mark_failed_stored; exact Hid]
             | unfold mark_completed;
               erewrite bind_ok; [|apply save_stored; exact Hid] ];
       reflexivity).
  all: done.
Qed.

Lemma plan_tasks_workflow_id wid c b sp tm segs :
  Forall (fun s => sw_workflow_id s = wid) (plan_tasks wid c b sp tm segs).
Proof.
  unfold plan_tasks. apply Forall_fmap, Forall_forall. by intros [i seg] _.
Qed.

(** *** One run of the graph *)

Section Run.
Context (wid content briefing : string) (speakers : list Speaker).
Context (epn spn : string) (n : Z) (om tm : option string).
Context (w : World) (r : AgenticPodcastWorkflow).
Hypothesis Hdb : db w !! wid = Some r.
Hypothesis Hid : wf_id r = Some wid.

#[local] Abbreviation init := (initial_state wid content briefing speakers epn spn n om tm).
#[local] Abbreviation planning := (set_stage_status r director in_progress).

Lemma ainvoke_director_failed e :
  director_llm om (mkDirectorPrompt briefing content speakers n) = inl e →
  let msg := "Director agent failed: " ++ str_exn e in
  ∃ sf, st_writer_outputs sf = [] ∧
    ainvoke' init w =
      (inr sf,
       mkWorld (<[wid := failed_with planning msg]> (db w))
         (saves w ++ [planning; failed_with planning msg]) (writer_calls w)).
Proof.
  intros Hllm msg. unfold ainvoke.
  erewrite bind_ok; [|by apply (run_director_fail init w r e)].
  simpl. eexists. split; cycle 1; [reflexivity|done].
Qed.

Lemma ainvoke_planned reasoning segs :
  reorders arrival →
  writer_outputs r = None →
  director_llm om (mkDirectorPrompt briefing content speakers n)
    = inr (reasoning, segs) →
  let planned :=
    set_director_output planning (mkDirectorOutput reasoning segs (Py.len segs)) in
  let arrived := arrival (plan_tasks wid content briefing speakers tm segs) in
  let errs := omap task_error' arrived in
  let outs := omap task_output' arrived in
  ∃ sf, st_writer_outputs sf = outs ∧
    st_director_output sf = Some (mkDirectorOutput reasoning segs (Py.len segs)) ∧
    ainvoke' init w =
      (inr sf,
       match segs with
       | [] =>
           mkWorld (<[wid := planned]> (db w)) (saves w ++ [planning; planned])
             (writer_calls w)
       | _ :: _ =>
           mkWorld (<[wid := joined_record planned errs outs]> (db w))
             (saves w ++ [planning; planned; joined_record planned errs outs])
             (writer_calls w ++ map task_call arrived)
       end).
Proof.
  intros Harr Hnone Hllm planned arrived errs outs. unfold ainvoke.
  erewrite bind_ok; [|by apply (run_director_ok init w r reasoning segs)].
  change (trigger_segment_writers _)
    with (plan_tasks wid content briefing speakers tm segs).
  fold planned.
  destruct segs as [|seg segs'].
  { simpl. eexists. split; [|split]; cycle 2; [reflexivity| |reflexivity].
    subst outs arrived. simpl.
    unfold plan_tasks. simpl. by rewrite (proj1 (Permutation_nil_r _) (Harr [])). }
  set (segs := seg :: segs') in *.
  assert (plan_tasks wid content briefing speakers tm segs ≠ []) as Hne by done.
  fold arrived.
  destruct (plan_tasks wid content briefing speakers tm segs) as [|t ts] eqn:Hts;
    [done|].
  match goal with
  | |- context [mkWorld ?d ?s ?c] => set (w1 := mkWorld d s c)
  end.
  assert (arrival (t :: ts) = arrived) as ->
    by (subst arrived; first [reflexivity | by rewrite Hts]).
  erewrite (bind_ok (mapM _ _)); cycle 1.
  { eapply (mapM_write_segment wid _ w1 planned).
    - unfold arrived. rewrite Harr, <- Hts. apply plan_tasks_workflow_id.
    - subst w1. simpl. apply lookup_insert_eq.
    - done. }
  rewrite foldl_task_updates.
  match goal with
  | |- context [save_workflow ?st] =>
      destruct (save_workflow_joined st
                  (mkWorld (db w1) (saves w1) (writer_calls w1 ++ map task_call arrived))
                  planned) as (u & Hu & Hud & Hsave)
  end.
  { simpl. apply lookup_insert_eq. }
  { exact Hid. }
  erewrite bind_ok; [|exact Hsave].
  unfold ret. eexists. split; [|split]; cycle 2.
  - f_equal. subst w1. simpl. rewrite insert_insert_eq, <- app_assoc. reflexivity.
  - simpl. unfold merge. rewrite Hu. by rewrite app_nil_r.
  - simpl. by rewrite Hud.
Qed.

Lemma run_of_ainvoke sf w' :
  ainvoke' init w = (inr sf, w') →
  run' wid content briefing speakers epn spn n om tm w = (inr (db w' !! wid), w').
Proof.
  intros Ha. unfold run_agentic_podcast_workflow.
  apply try_except_ok. by erewrite bind_ok.
Qed.

Lemma run_planned reasoning segs :
  reorders arrival →
  writer_outputs r = None →
  director_llm om (mkDirectorPrompt briefing content speakers n)
    = inr (reasoning, segs) →
  segs ≠ [] →
  let planned :=
    set_director_output planning (mkDirectorOutput reasoning segs (Py.len segs)) in
  let arrived := arrival (plan_tasks wid content briefing speakers tm segs) in
  let joined :=
    joined_record planned (omap task_error' arrived) (omap task_output' arrived) in
  run' wid content briefing speakers epn spn n om tm w =
    (inr (Some joined),
     mkWorld (<[wid := joined]> (db w)) (saves w ++ [planning; planned; joined])
       (writer_calls w ++ map task_call arrived)).
Proof.
  intros Harr Hnone Hllm Hne planned arrived joined.
  destruct (ainvoke_planned reasoning segs Harr Hnone Hllm) as (sf & _ & _ & Hrun).
  apply run_of_ainvoke in Hrun. rewrite Hrun.
  destruct segs; [done|]. cbn [db]. by rewrite lookup_insert_eq.
Qed.

Lemma run_director_failed e :
  director_llm om (mkDirectorPrompt briefing content speakers n) = inl e →
  let failed_plan := failed_with planning ("Director agent failed: " ++ str_exn e) in
  run' wid content briefing speakers epn spn n om tm w =
    (inr (Some failed_plan),
     mkWorld (<[wid := failed_plan]> (db w)) (saves w ++ [planning; failed_plan])
       (writer_calls w)).
Proof.
  intros Hllm failed_plan.
  destruct (ainvoke_director_failed e Hllm) as (sf & _ & Hrun).
  apply run_of_ainvoke in Hrun. rewrite Hrun.
  cbn [db]. by rewrite lookup_insert_eq.
Qed.

Lemma run_empty_plan reasoning :
  reorders arrival →
  writer_outputs r = None →
  director_llm om (mkDirectorPrompt briefing content speakers n)
    = inr (reasoning, []) →
  let planned := set_director_output planning (mkDirectorOutput reasoning [] 0) in
  run' wid content briefing speakers epn spn n om tm w =
    (inr (Some planned),
     mkWorld (<[wid := planned]> (db w)) (saves w ++ [planning; planned])
       (writer_calls w)).
Proof.
  intros Harr Hnone Hllm planned.
  destruct (ainvoke_planned reasoning [] Harr Hnone Hllm) as (sf & _ & _ & Hrun).
  apply run_of_ainvoke in Hrun. rewrite Hrun.
  cbn [db]. by rewrite lookup_insert_eq.
Qed.

End Run.

(** *** Indices and outcomes of the tasks of a plan *)

Lemma enumerate_from_fst {A} i (l : list A) :
  map fst (Py.enumerate_from i l) = map (fun k => i + Z.of_nat k) (seq 0 (length l)).
Proof.
  revert i. induction l as [|x l IH]; intros i; simpl; [done|].
  f_equal; [lia|]. rewrite IH, <- seq_shift, map_map.
  apply map_ext. intros k. lia.
Qed.

Lemma plan_tasks_indices wid c b sp tm segs :
  map sw_segment_index (plan_tasks wid c b sp tm segs)
    = map Z.of_nat (seq 0 (length segs)).
Proof.
  unfold plan_tasks. rewrite map_map.
  transitivity (map fst (Py.enumerate segs)).
  - apply map_ext. by intros [i seg].
  - unfold Py.enumerate. rewrite enumerate_from_fst. apply map_ext. intros; lia.
Qed.

Lemma plan_tasks_segments wid c b sp tm segs :
  map sw_segment (plan_tasks wid c b sp tm segs) = segs.
Proof.
  unfold plan_tasks, Py.enumerate. rewrite map_map. generalize 0. generalize segs at 1.
  induction segs as [|x l IH]; intros all i; simpl; [done|]. by rewrite IH.
Qed.

Lemma plan_tasks_length wid c b sp tm segs :
  length (plan_tasks wid c b sp tm segs) = length segs.
Proof.
  rewrite <- (length_map sw_segment_index), plan_tasks_indices.
  by rewrite length_map, length_seq.
Qed.

Lemma of_nat_seq_sorted i k :
  StronglySorted Z.lt (map Z.of_nat (seq i k)).
Proof.
  revert i. induction k as [|k IH]; intros i; simpl; constructor; [apply IH|].
  apply Forall_forall. intros z Hz.
  apply list_elem_of_fmap in Hz as (j & -> & Hj).
  apply list_elem_of_In, in_seq in Hj. lia.
Qed.

Lemma plan_tasks_sorted wid c b sp tm segs :
  StronglySorted (fun s t => sw_segment_index s < sw_segment_index t)
    (plan_tasks wid c b sp tm segs).
Proof.
  pose proof (of_nat_seq_sorted 0 (length segs)) as Hs.
  rewrite <- (plan_tasks_indices wid c b sp tm) in Hs.
  induction (plan_tasks wid c b sp tm segs) as [|t l IH]; [constructor|].
  simpl in Hs. apply StronglySorted_inv in Hs as [Hl Ht].
  constructor; [by apply IH|].
  apply Forall_forall. intros u Hu. rewrite Forall_forall in Ht.
  apply Ht. by apply list_elem_of_fmap_2.
Qed.

Lemma task_output_index s o :
  task_output' s = Some o → segment_index o = sw_segment_index s.
Proof.
  unfold task_output. destruct (task_result _ _); [done|]. by intros [= <-].
Qed.

Lemma task_outputs_sorted l :
  StronglySorted (fun s t => sw_segment_index s < sw_segment_index t) l →
  StronglySorted (fun x y => segment_index x < segment_index y) (omap task_output' l).
Proof.
  induction 1 as [|s l Hl IH Hs]; simpl; [constructor|].
  destruct (task_output' s) as [o|] eqn:Ho; [|done].
  constructor; [done|].
  apply Forall_forall. intros o' Ho'.
  apply list_elem_of_omap in Ho' as (s' & Hs' & Ho').
  rewrite Forall_forall in Hs.
  rewrite (task_output_index _ _ Ho), (task_output_index _ _ Ho'). by apply Hs.
Qed.

Lemma strictly_sorted_NoDup {A} (key : A → Z) l :
  StronglySorted (fun x y => key x < key y) l → NoDup (map key l).
Proof.
  induction 1 as [|x l Hl IH Hx]; simpl; constructor; [|done].
  intros Hin. apply list_elem_of_fmap in Hin as (y & Hk & Hy).
  rewrite Forall_forall in Hx. apply Hx in Hy. lia.
Qed.

Lemma task_outcome_cases s :
  (∃ o, task_output' s = Some o ∧ task_error' s = None) ∨
  (∃ e, task_output' s = None ∧ task_error' s = Some e).
Proof.
  unfold task_output, task_error. destruct (task_result _ _); eauto.
Qed.

Lemma task_outcomes_length l :
  (length (omap task_output' l) + length (omap task_error' l) = length l)%nat.
Proof.
  induction l as [|s l IH]; simpl; [done|].
  destruct (task_outcome_cases s) as [(o & -> & ->)|(e & -> & ->)];
    simpl; unfold omap in IH; lia.
Qed.

Lemma omap_none {A B} (f : A → option B) l :
  Forall (fun x => f x = None) l → omap f l = [].
Proof. induction 1 as [|x l Hx _ IH]; simpl; [done|]. by rewrite Hx. Qed.

Lemma task_error_None s : is_Some (task_output' s) → task_error' s = None.
Proof.
  unfold task_output, task_error. destruct (task_result _ _); [|done].
  by intros [? [=]].
Qed.

(** The accumulated outputs, sorted, are the outputs in plan order whatever
    the arrival order was. *)
Lemma sorted_arrived_outputs wid c b sp tm segs :
  reorders arrival →
  let tasks := plan_tasks wid c b sp tm segs in
  Py.sorted segment_index (omap task_output' (arrival tasks)) = omap task_output' tasks.
Proof.
  intros Harr tasks.
  assert (StronglySorted (fun x y => segment_index x < segment_index y)
            (omap task_output' tasks)) as Hs
    by apply task_outputs_sorted, plan_tasks_sorted.
  assert (omap task_output' (arrival tasks) ≡ₚ omap task_output' tasks) as Hp
    by (by rewrite (Harr tasks)).
  rewrite (sorted_perm_eq segment_index _ _ Hp).
  - apply sorted_id. by apply StronglySorted_Sorted.
  - rewrite Hp. by apply strictly_sorted_NoDup.
Qed.

(** In a list of two or three saved records of which only the last may be in
    an end state, nothing follows a record in an end state. *)
Lemma last_terminal_2 a b pre x post :
  ¬ terminal a → ([a; b] = pre ++ x :: post)%list → terminal x → post = [].
Proof.
  intros Ha Heq Hx.
  destruct pre as [|? [|? pre]]; simplify_eq/=; [done..|].
  by destruct pre.
Qed.

Lemma last_terminal_3 a b c pre x post :
  ¬ terminal a → ¬ terminal b →
  ([a; b; c] = pre ++ x :: post)%list → terminal x → post = [].
Proof.
  intros Ha Hb Heq Hx.
  destruct pre as [|? [|? [|? pre]]]; simplify_eq/=; [done..|].
  by destruct pre.
Qed.

(** ** The claims about one run of the engine *)

Section Claims.
Context (wid content briefing : string) (speakers : list Speaker).
Context (epn spn : string) (n : Z) (om tm : option string).
Context (w : World) (r : AgenticPodcastWorkflow).

#[local] Abbreviation run_here := (run' wid content briefing speakers epn spn n om tm w).
#[local] Abbreviation tasks_of := (plan_tasks wid content briefing speakers tm).
#[local] Abbreviation ask_director :=
  (director_llm om (mkDirectorPrompt briefing content speakers n)).

(** C1 (all-or-nothing commit).  After a successful planning step, let the
    writing tasks report in any arrival order.  If at least one task reported
    an error, or the number of successful outputs is not the number of planned
    segments, the run returns the record in stage failed and status failed,
    its error message is the task errors (each naming its segment index)
    joined with "; ", and no record saved during the run carries writer
    outputs: the successful outputs are dropped. *)
Theorem all_or_nothing_commit reasoning segs :
  reorders arrival →
  fresh_record w wid r →
  ask_director = inr (reasoning, segs) →
  let arrived := arrival (tasks_of segs) in
  let errs := omap task_error' arrived in
  let outs := omap task_output' arrived in
  errs ≠ [] ∨ length outs ≠ length segs →
  ∃ r' w' new,
    run_here = (inr (Some r'), w') ∧
    db w' !! wid = Some r' ∧
    current_stage r' = stage_failed ∧ status r' = failed ∧
    error_message r' = Some (Py.join "; " errs) ∧
    (length outs + length errs = length segs)%nat ∧
    writer_outputs r' = None ∧
    saves w' = (saves w ++ new)%list ∧
    Forall (fun x => writer_outputs x = None) new.
Proof.
  intros Harr (Hdb & Hid & _ & _ & _ & Hnone & _) Hllm arrived errs outs Hfail.
  assert (length outs + length errs = length segs)%nat as Hlen.
  { subst outs errs arrived. rewrite task_outcomes_length.
    by rewrite (Harr _), plan_tasks_length. }
  assert (errs ≠ []) as Herrs.
  { destruct Hfail as [?|Hcount]; [done|]. intros Hnil. rewrite Hnil in Hlen.
    simpl in Hlen. lia. }
  assert (segs ≠ []) as Hne.
  { intros ->. apply Herrs. subst errs arrived. unfold plan_tasks. simpl.
    by rewrite (proj1 (Permutation_nil_r _) (Harr [])). }
  rewrite (run_planned wid content briefing speakers epn spn n om tm w r
             Hdb Hid reasoning segs Harr Hnone Hllm Hne).
  fold arrived errs outs. unfold joined_record.
  destruct errs as [|e es] eqn:He; [done|].
  eexists _, _, [_; _; _]. split; [reflexivity|].
  split; [apply lookup_insert_eq|].
  repeat split; try done.
  repeat constructor; simpl; done.
Qed.

(** C2 (ordering).  For a plan with at least one segment whose writing tasks
    all succeed, and whatever the arrival order of their results, the run
    returns the record completed, and its stored writer outputs are the tasks'
    outputs in plan order: their indices are 0, 1, ..., k-1, their names are
    the plan's segment names in order, and the full transcript is the
    concatenation of the segments' lines in that order. *)
Theorem transcript_in_plan_order reasoning segs :
  reorders arrival →
  fresh_record w wid r →
  ask_director = inr (reasoning, segs) →
  segs ≠ [] →
  (∀ s, s ∈ tasks_of segs → is_Some (task_output' s)) →
  let outputs := omap task_output' (tasks_of segs) in
  ∃ r' w',
    run_here = (inr (Some r'), w') ∧
    db w' !! wid = Some r' ∧
    current_stage r' = stage_completed ∧ status r' = completed ∧
    writer_outputs r' = Some outputs ∧
    map segment_index outputs = map Z.of_nat (seq 0 (length segs)) ∧
    map segment_name outputs = map seg_name segs ∧
    get_full_transcript r' = concat (map transcript outputs).
Proof.
  intros Harr (Hdb & Hid & _ & _ & _ & Hnone & _) Hllm Hne Hall outputs.
  (* every task succeeded: the outputs are those of the tasks, one for one *)
  assert (Forall2 (fun s o => task_output' s = Some o) (tasks_of segs) outputs)
    as Hf2.
  { subst outputs. induction (tasks_of segs) as [|s l IH]; simpl; [constructor|].
    destruct (Hall s) as [o Ho]; [by left|]. rewrite Ho.
    constructor; [done|]. apply IH. intros s' Hs'. apply Hall. by right. }
  assert (map segment_index outputs = map sw_segment_index (tasks_of segs)) as Hidx.
  { clear -Hf2. induction Hf2 as [|s o l l' Ho _ IH]; simpl; [done|].
    by rewrite IH, (task_output_index _ _ Ho). }
  assert (map segment_name outputs = map seg_name (map sw_segment (tasks_of segs)))
    as Hnames.
  { clear -Hf2. induction Hf2 as [|s o l l' Ho _ IH]; simpl; [done|].
    rewrite IH. f_equal. unfold task_output in Ho.
    destruct (task_result _ _); [done|]. by injection Ho as <-. }
  rewrite plan_tasks_indices in Hidx. rewrite plan_tasks_segments in Hnames.
  assert (Py.sorted segment_index outputs = outputs) as Hsorted.
  { apply sorted_id, StronglySorted_Sorted, task_outputs_sorted, plan_tasks_sorted. }
  rewrite (run_planned wid content briefing speakers epn spn n om tm w r
             Hdb Hid reasoning segs Harr Hnone Hllm Hne).
  (* no error arrived *)
  assert (omap task_error' (arrival (tasks_of segs)) = []) as ->.
  { apply omap_none, Forall_forall. intros s Hs.
    apply task_error_None, Hall. by rewrite <- (Harr _). }
  (* the outputs that arrived, sorted, are the outputs in plan order *)
  pose proof (sorted_arrived_outputs wid content briefing speakers tm segs Harr)
    as Hcommit. cbv zeta in Hcommit. fold outputs in Hcommit.
  assert (length outputs = length segs) as Hlen
    by (by rewrite <- (length_map segment_index), Hidx, length_map, length_seq).
  assert (outputs ≠ []) as Hsome
    by (intros Hnil; rewrite Hnil in Hlen; by destruct segs).
  unfold joined_record.
  destruct (omap task_output' (arrival (tasks_of segs))) as [|o os] eqn:Houts.
  { by rewrite <- Hcommit in Hsome. }
  rewrite Hcommit.
  eexists _, _. split; [reflexivity|].
  split; [apply lookup_insert_eq|].
  repeat split; try done.
  unfold get_full_transcript, get_writer_outputs. cbn [completed_with writer_outputs
    set_stage_status set_writer_outputs].
  destruct outputs; [done|]. by rewrite Hsorted.
Qed.

(** C3 (short-circuit on planning failure).  If the director fails, the run
    returns the record in stage failed and status failed with the director's
    error as its message, that record is what the store holds and the last
    one saved, and the writer agent has not been called: the log of writer
    calls is what it was before the run. *)
Theorem planning_failure_short_circuit e :
  db w !! wid = Some r →
  wf_id r = Some wid →
  ask_director = inl e →
  ∃ r' w',
    run_here = (inr (Some r'), w') ∧
    db w' !! wid = Some r' ∧
    last (saves w') = Some r' ∧
    current_stage r' = stage_failed ∧ status r' = failed ∧
    error_message r' = Some ("Director agent failed: " ++ str_exn e) ∧
    writer_calls w' = writer_calls w.
Proof.
  intros Hdb Hid Hllm.
  rewrite (run_director_failed wid content briefing speakers epn spn n om tm w r
             Hdb Hid e Hllm).
  eexists _, _. split; [reflexivity|].
  split; [apply lookup_insert_eq|].
  split; [|done].
  cbn [saves]. by rewrite last_app.
Qed.

(** C4 (no cross-segment context in a parallel run).  In a run on a freshly
    created record, every call of the writer agent made during the run gets
    [None] as its previous segments, so the prompt carries no previous
    transcript. *)
Theorem parallel_tasks_see_no_previous_segments :
  reorders arrival →
  fresh_record w wid r →
  ∃ res w' new,
    run_here = (inr res, w') ∧
    writer_calls w' = (writer_calls w ++ new)%list ∧
    Forall (fun c => wc_previous_segments c = None ∧
                     previous_transcript_text (wc_previous_segments c) = None) new.
Proof.
  intros Harr (Hdb & Hid & _ & _ & _ & Hnone & _).
  destruct ask_director as [e|[reasoning segs]] eqn:Hllm.
  - destruct (ainvoke_director_failed wid content briefing speakers epn spn n om tm
                w r Hdb Hid e Hllm) as (sf & _ & Hrun).
    apply run_of_ainvoke in Hrun. rewrite Hrun.
    eexists _, _, []. split; [reflexivity|]. split; [|constructor].
    cbn [writer_calls]. by rewrite app_nil_r.
  - destruct (ainvoke_planned wid content briefing speakers epn spn n om tm w r
                Hdb Hid reasoning segs Harr Hnone Hllm) as (sf & _ & _ & Hrun).
    apply run_of_ainvoke in Hrun. rewrite Hrun.
    destruct segs as [|seg segs'].
    + eexists _, _, []. split; [reflexivity|]. split; [|constructor].
      cbn [writer_calls]. by rewrite app_nil_r.
    + eexists _, _, _. split; [reflexivity|]. split; [reflexivity|].
      apply Forall_fmap, Forall_forall. by intros s _.
Qed.

(** Every output a writing task returns carries the task's own index, on
    any record. *)
Lemma write_segment_index s w0 u w1 :
  write_segment' s w0 = (inr u, w1) →
  Forall (fun o => segment_index o = sw_segment_index s) (u_writer_outputs u).
Proof.
  unfold write_segment, try_except, bind, Store.get, Store.obj, writer_agent,
    log_writer_call, ret, raise.
  destruct (db w0 !! sw_workflow_id s) as [wf|]; simpl.
  - destruct (writer_llm _ _); intros [= <- _]; simpl; repeat constructor.
  - intros [= <- _]. constructor.
Qed.

(** C10 (engine-assigned indices).  The tasks launched for a plan of k
    segments carry the indices 0, 1, ..., k-1 in plan order; an output returned
    by a task carries that task's index; and in the state the graph ends in,
    the accumulated outputs have pairwise different indices, all within the
    plan. *)
Theorem engine_assigned_indices_unique :
  reorders arrival →
  fresh_record w wid r →
  (∀ state out,
     st_director_output state = Some out →
     map sw_segment_index (trigger_segment_writers state)
       = map Z.of_nat (seq 0 (length (segments out)))) ∧
  (∀ s w0 u w1,
     write_segment' s w0 = (inr u, w1) →
     Forall (fun o => segment_index o = sw_segment_index s) (u_writer_outputs u)) ∧
  ∃ sf w',
    ainvoke' (initial_state wid content briefing speakers epn spn n om tm) w
      = (inr sf, w') ∧
    NoDup (map segment_index (st_writer_outputs sf)) ∧
    ∀ o, o ∈ st_writer_outputs sf →
      ∃ out, st_director_output sf = Some out ∧
             0 <= segment_index o < Py.len (segments out).
Proof.
  intros Harr (Hdb & Hid & _ & _ & _ & Hnone & _).
  split; [|split].
  - intros state out Hout. unfold trigger_segment_writers. rewrite Hout.
    apply (plan_tasks_indices (st_workflow_id state) (st_content state)
             (st_briefing state) (st_speakers state) (st_transcript_model state)).
  - apply write_segment_index.
  - destruct ask_director as [e|[reasoning segs]] eqn:Hllm.
    + destruct (ainvoke_director_failed wid content briefing speakers epn spn n om
                  tm w r Hdb Hid e Hllm) as (sf & Houts & Hrun).
      eexists _, _. split; [exact Hrun|]. rewrite Houts.
      split; [constructor|]. intros o Ho. by inv Ho.
    + destruct (ainvoke_planned wid content briefing speakers epn spn n om tm w r
                  Hdb Hid reasoning segs Harr Hnone Hllm)
        as (sf & Houts & Hplan & Hrun).
      eexists _, _. split; [exact Hrun|]. rewrite Houts, Hplan.
      assert (omap task_output' (arrival (tasks_of segs))
                ≡ₚ omap task_output' (tasks_of segs)) as Hp by (by rewrite (Harr _)).
      split.
      * rewrite Hp. apply strictly_sorted_NoDup, task_outputs_sorted,
          plan_tasks_sorted.
      * intros o Ho. eexists. split; [reflexivity|]. simpl.
        rewrite Hp in Ho. apply list_elem_of_omap in Ho as (s & Hs & Ho).
        rewrite (task_output_index _ _ Ho).
        assert (sw_segment_index s ∈ map Z.of_nat (seq 0 (length segs))) as Hin.
        { rewrite <- (plan_tasks_indices wid content briefing speakers tm).
          by apply list_elem_of_fmap_2. }
        apply list_elem_of_fmap in Hin as (k & -> & Hk).
        apply list_elem_of_In, in_seq in Hk. unfold Py.len. lia.
Qed.

(** C8, as the code has it (terminal states within one run).  In a run on a
    freshly created record, stage and status agree on the end states in every
    record saved, and a record saved in an end state (completed or failed) is the
    last record the run saves: within the run nothing is written after it, so
    plan, writer outputs and error message are not changed any more. *)
Theorem terminal_save_is_last_of_run :
  reorders arrival →
  fresh_record w wid r →
  ∃ res w' new,
    run_here = (inr res, w') ∧
    saves w' = (saves w ++ new)%list ∧
    Forall stage_status_agree new ∧
    ∀ pre x post, new = (pre ++ x :: post)%list → terminal x → post = [].
Proof.
  intros Harr (Hdb & Hid & _ & _ & _ & Hnone & _).
  assert (∀ s, ¬ terminal (set_stage_status s director in_progress)) as Hrunning
    by (intros s [?|?]; done).
  assert (∀ s o, ¬ terminal (set_director_output
                               (set_stage_status s director in_progress) o))
    as Hplanned by (intros s o [?|?]; done).
  assert (∀ s, stage_status_agree (set_stage_status s director in_progress))
    as Hplanning by (intros s; split; split; done).
  assert (∀ s msg, stage_status_agree (failed_with s msg))
    as Hfailed by (intros s msg; split; split; done).
  assert (∀ s errs outs, stage_status_agree (joined_record s errs outs))
    as Hjoined by (intros s [|??] [|??]; split; split; done).
  assert (∀ s o, stage_status_agree
                   (set_director_output (set_stage_status s director in_progress) o))
    as Hplan by (intros s o; split; split; done).
  destruct ask_director as [e|[reasoning segs]] eqn:Hllm.
  - rewrite (run_director_failed wid content briefing speakers epn spn n om tm w r
               Hdb Hid e Hllm).
    eexists _, _, [_; _]. split; [reflexivity|]. split; [reflexivity|].
    split; [by auto using Forall_nil_2, Forall_cons_2|].
    intros pre x post Heq. exact (last_terminal_2 _ _ _ _ _ (Hrunning _) Heq).
  - destruct (decide (segs = [])) as [->|Hne].
    + rewrite (run_empty_plan wid content briefing speakers epn spn n om tm w r
                 Hdb Hid reasoning Harr Hnone Hllm).
      eexists _, _, [_; _]. split; [reflexivity|]. split; [reflexivity|].
      split; [by auto using Forall_nil_2, Forall_cons_2|].
      intros pre x post Heq. exact (last_terminal_2 _ _ _ _ _ (Hrunning _) Heq).
    + rewrite (run_planned wid content briefing speakers epn spn n om tm w r
                 Hdb Hid reasoning segs Harr Hnone Hllm Hne).
      eexists _, _, [_; _; _]. split; [reflexivity|]. split; [reflexivity|].
      split; [by auto using Forall_nil_2, Forall_cons_2|].
      intros pre x post Heq.
      exact (last_terminal_3 _ _ _ _ _ _ (Hrunning _) (Hplanned _ _) Heq).
Qed.

End Claims.

End EngineFacts.

(** ** The service layer *)

(** C5 (transcript guard).  For a stored workflow whose status is not
    completed, [get_transcript] raises the HTTP 400 error "Workflow is not
    completed" and leaves the store as it is, whatever writer outputs the
    record holds; and whenever [get_transcript] returns a transcript, the
    workflow is stored with status completed and the lines returned are its
    full transcript. *)
Theorem transcript_guard (workflow_id : string) (w : World) :
  (∀ r, db w !! workflow_id = Some r → status r ≠ completed →
     get_transcript workflow_id w =
       (inl (HTTPException 400
               ("Workflow is not completed (status: " ++ str_status (status r) ++ ")")),
        w)) ∧
  (∀ resp w', get_transcript workflow_id w = (inr resp, w') →
     ∃ r, db w !! workflow_id = Some r ∧ status r = completed ∧
          tr_total_turns resp = Py.len (get_full_transcript r) ∧
          tr_transcript resp =
            map (fun line => [("speaker", speaker line); ("dialogue", dialogue line)])
              (get_full_transcript r)).
Proof.
  unfold get_transcript, http_guard, try_except, bind, Store.get, raise, ret.
  split.
  - intros r -> Hs. by destruct (status r).
  - intros resp w'. destruct (db w !! workflow_id) as [r|]; [|done].
    destruct (status r) eqn:Hs; try done.
    intros [= <- <-]. by exists r.
Qed.

(** ** Segment sizing *)

(** C6 (deterministic sizing).  The target turn count is a function of the
    segment size and the two bounds alone: short gives the requested minimum
    clamped to 8..15, medium to 15..25, long to 20..max_turns (for a maximum
    of at least 20, so that the interval is not empty); the prompt handed to
    the generation capability carries exactly that number, whatever the other
    inputs are, and with the bounds the engine uses (10 and 30) the three
    sizes give 10, 15 and 20. *)
Theorem deterministic_sizing (min_turns max_turns : Z) :
  target_turns short min_turns max_turns = clamp min_turns 8 15 ∧
  target_turns medium min_turns max_turns = clamp min_turns 15 25 ∧
  (20 <= max_turns →
   target_turns long min_turns max_turns = clamp min_turns 20 max_turns) ∧
  (∀ segment index content briefing speakers outline previous,
     wp_target_turns
       (writer_prompt segment index content briefing speakers outline previous
          min_turns max_turns)
     = target_turns (size segment) min_turns max_turns) ∧
  (target_turns short 10 30, target_turns medium 10 30, target_turns long 10 30)
    = (10, 15, 20).
Proof.
  unfold target_turns, clamp.
  repeat split; try done; intros;
    repeat match goal with
           | |- context [?a <? ?b] => destruct (Z.ltb_spec a b)
           end; lia.
Qed.

(** ** The accumulator *)

(** C7, as the code has it.  The reducer is list concatenation: it is
    associative, and the two orders of merging give the same elements
    (a permutation), not the same list; two accumulated lists with the same
    outputs, of pairwise different segment indices, are committed as the same
    sorted list, in particular {A,B} then {C} and {C} then {A,B}. *)
Theorem merge_order_irrelevant_after_sort :
  (∀ x y z : list WriterOutput, merge (merge x y) z = merge x (merge y z)) ∧
  (∀ x y z : list string, merge (merge x y) z = merge x (merge y z)) ∧
  (∀ ab c : list WriterOutput, merge ab c ≡ₚ merge c ab) ∧
  (∀ l1 l2 : list WriterOutput,
     l1 ≡ₚ l2 → NoDup (map segment_index l1) →
     Py.sorted segment_index l1 = Py.sorted segment_index l2) ∧
  (∀ a b c : WriterOutput,
     NoDup [segment_index a; segment_index b; segment_index c] →
     Py.sorted segment_index (merge (merge [a] [b]) [c])
       = Py.sorted segment_index (merge [c] (merge [a] [b]))).
Proof.
  unfold merge. split; [|split; [|split; [|split]]].
  - intros. by rewrite app_assoc.
  - intros. by rewrite app_assoc.
  - intros. apply Permutation_app_comm.
  - intros l1 l2. apply sorted_perm_eq.
  - intros a b c Hnd. apply sorted_perm_eq; [|done].
    apply (Permutation_app_comm [a; b] [c]).
Qed.

(** ** Creation *)

Section Creation.
Context (director_llm : option string → DirectorPrompt → exn + (string * list OutlineSegment)).
Context (writer_llm : option string → WriterPrompt → exn + list TranscriptLine).
Context (arrival : list SegmentWriterState → list SegmentWriterState).
Context (EpisodeProfile_get_by_name : string → option EpisodeProfile).
Context (SpeakerProfile_get_by_name : string → option SpeakerProfile).
Context (gather_notebook_content : string → exn + string).

#[local] Abbreviation create_workflow' :=
  (create_workflow director_llm writer_llm arrival EpisodeProfile_get_by_name
     SpeakerProfile_get_by_name gather_notebook_content).

(** The record a run returns keeps the content and the notebook id it was
    created with. *)
Lemma joined_record_source r errs outs :
  wf_content (joined_record r errs outs) = wf_content r ∧
  wf_notebook_id (joined_record r errs outs) = wf_notebook_id r ∧
  wf_id (joined_record r errs outs) = wf_id r.
Proof. by destruct errs, outs. Qed.

(** C9, as the code has it (content source at creation).  A request with
    neither direct content nor a notebook id is rejected with an HTTP error
    and the world is left as it was: no record is created or changed; when both
    profiles exist the error is the 400 "Either 'content' or 'notebook_id'
    must be provided".  A request with direct content is accepted whether or
    not it also names a notebook: a record is created under a fresh id with
    that content, and the notebook id is kept beside it. *)
Theorem content_source_validation (request : AgenticWorkflowRequest) (w : World) :
  (Py.truthy_str (rq_content request) = false →
   Py.truthy_str (rq_notebook_id request) = false →
   ∃ code detail,
     create_workflow' request w = (inl (HTTPException code detail), w) ∧
     (code = 400 ∨ code = 404) ∧
     ∀ ep sp,
       EpisodeProfile_get_by_name (rq_episode_profile request) = Some ep →
       SpeakerProfile_get_by_name (ep_speaker_config ep) = Some sp →
       code = 400 ∧ detail = "Either 'content' or 'notebook_id' must be provided") ∧
  (reorders arrival →
   Py.truthy_str (rq_content request) = true →
   ∀ ep sp,
     EpisodeProfile_get_by_name (rq_episode_profile request) = Some ep →
     SpeakerProfile_get_by_name (ep_speaker_config ep) = Some sp →
     ∃ resp w' r,
       create_workflow' request w = (inr resp, w') ∧
       db w !! Store.new_id w = None ∧
       rs_workflow_id resp = Store.new_id w ∧
       db w' !! Store.new_id w = Some r ∧
       wf_content r = rq_content request ∧
       wf_notebook_id r = rq_notebook_id request).
Proof.
  split.
  - intros Hc Hn. unfold create_workflow, http_guard, try_except.
    destruct (EpisodeProfile_get_by_name _) as [ep|]; cycle 1.
    { eexists _, _. split; [reflexivity|]. split; [by right|]. by intros. }
    destruct (SpeakerProfile_get_by_name _) as [sp|] eqn:Hsp; cycle 1.
    { eexists _, _. split; [reflexivity|]. split; [by right|].
      intros ep' sp' [= <-] Hsp'. congruence. }
    rewrite Hc, Hn. eexists _, _. split; [reflexivity|]. split; [by left|].
    by intros.
  - intros Harr Hc ep sp Hep Hsp.
    destruct (rq_content request) as [[|c0 cs]|] eqn:Hcontent; try done.
    set (content := String c0 cs).
    unfold create_workflow, http_guard. rewrite Hep, Hsp, Hcontent.
    simpl Py.truthy_str. cbv iota. unfold try_except at 1. rewrite bind_ret.
    cbv beta. change (default EmptyString (Some (String c0 cs))) with (String c0 cs).
    assert (db w !! Store.new_id w = None) as Hfresh.
    { apply not_elem_of_dom. apply fresh_string_of_set_fresh. }
    match goal with
    | |- ∃ resp w' r, (let (s, w'0) := ?m in _) = _ ∧ _ =>
        assert (∃ resp w' r,
                  m = (inr resp, w') ∧ rs_workflow_id resp = Store.new_id w ∧
                  db w' !! Store.new_id w = Some r ∧
                  wf_content r = Some (String c0 cs) ∧
                  wf_notebook_id r = rq_notebook_id request)
          as (resp & w' & r & Hm & H1 & H2 & H3 & H4)
    end; cycle 1.
    { exists resp, w', r. by rewrite Hm. }
    erewrite bind_ok; [|reflexivity].
    change (str_id (set_id _ ?i)) with i. cbn [db saves writer_calls].
    match goal with
    | |- context [run_agentic_podcast_workflow _ _ _ _ ?c ?b ?s _ _ ?n ?o _] =>
        destruct (director_llm o (mkDirectorPrompt b c s n))
          as [e|[reasoning segs]] eqn:Hllm
    end.
    + eexists _, _, _. split.
      { apply try_except_ok. erewrite bind_ok; cycle 1.
        { eapply run_director_failed; [apply lookup_insert_eq|done|exact Hllm]. }
        reflexivity. }
      cbn [db]. rewrite lookup_insert_eq. done.
    + destruct (decide (segs = [])) as [->|Hne].
      * eexists _, _, _. split.
        { apply try_except_ok. erewrite bind_ok; cycle 1.
          { eapply run_empty_plan;
              [apply lookup_insert_eq|done|exact Harr|done|exact Hllm]. }
          reflexivity. }
        cbn [db]. rewrite lookup_insert_eq. done.
      * eexists _, _, _. split.
        { apply try_except_ok. erewrite bind_ok; cycle 1.
          { eapply run_planned;
              [apply lookup_insert_eq|done|exact Harr|done|exact Hllm|exact Hne]. }
          reflexivity. }
        cbn [db]. rewrite lookup_insert_eq.
        match goal with
        | |- context [joined_record ?r ?errs ?outs] =>
            destruct (joined_record_source r errs outs) as (Hjc & Hjn & Hji)
        end.
        unfold str_id. cbn [rs_workflow_id]. rewrite Hjc, Hjn, Hji. done.
Qed.

End Creation.

(** ** The statements on the example data *)

Lemma reverse_arrival_reorders : reorders Ex.arrival.
Proof. intros l. symmetry. apply Permutation_rev. Defined.

Lemma example_record_fresh : fresh_record Ex.world Ex.workflow_id Ex.record.
Proof. repeat split; reflexivity. Defined.

(** Scenario B: the writer fails on segment 1 only; the run ends failed, the
    message names segment 1, no outputs are stored. *)
Lemma all_or_nothing_commit_witness :
  reorders Ex.arrival ∧
  fresh_record Ex.world Ex.workflow_id Ex.record ∧
  ∃ r' w',
    run_agentic_podcast_workflow Ex.director_stub Ex.writer_failing_on_1 Ex.arrival
      Ex.workflow_id "source text" "brief" Ex.speakers "tech" "duo" 3 None None
      Ex.world = (inr (Some r'), w') ∧
    current_stage r' = stage_failed ∧ status r' = failed ∧
    error_message r' = Some "Writer agent failed for segment 1: timeout" ∧
    writer_outputs r' = None.
Proof.
  split; [exact reverse_arrival_reorders|]. split; [exact example_record_fresh|].
  edestruct (all_or_nothing_commit Ex.director_stub Ex.writer_failing_on_1
               Ex.arrival Ex.workflow_id "source text" "brief" Ex.speakers "tech"
               "duo" 3 None None Ex.world Ex.record "three acts" Ex.plan
               reverse_arrival_reorders example_record_fresh eq_refl)
    as (r' & w' & new & Hrun & _ & Hstage & Hstatus & Hmsg & _ & Houts & _).
  { left. vm_compute. discriminate. }
  exists r', w'. repeat split; assumption.
Defined.

(** Scenario A: all three tasks succeed with 10, 18 and 22 turns and arrive in
    reverse; the run ends completed, the stored outputs are in order 0, 1, 2 and
    the transcript has 50 lines. *)
Lemma transcript_in_plan_order_witness :
  reorders Ex.arrival ∧
  fresh_record Ex.world Ex.workflow_id Ex.record ∧
  Ex.plan ≠ [] ∧
  ∃ r' w' outs,
    run_agentic_podcast_workflow Ex.director_stub Ex.writer_stub Ex.arrival
      Ex.workflow_id "source text" "brief" Ex.speakers "tech" "duo" 3 None None
      Ex.world = (inr (Some r'), w') ∧
    status r' = completed ∧
    writer_outputs r' = Some outs ∧
    map segment_index outs = [0; 1; 2] ∧
    map segment_name outs = ["Intro"; "Deep dive"; "Wrap-up"] ∧
    length (get_full_transcript r') = 50%nat.
Proof.
  split; [exact reverse_arrival_reorders|]. split; [exact example_record_fresh|].
  split; [discriminate|].
  edestruct (transcript_in_plan_order Ex.director_stub Ex.writer_stub Ex.arrival
               Ex.workflow_id "source text" "brief" Ex.speakers "tech" "duo" 3 None
               None Ex.world Ex.record "three acts" Ex.plan
               reverse_arrival_reorders example_record_fresh eq_refl)
    as (r' & w' & Hrun & _ & _ & Hstatus & Houts & Hidx & Hnames & Htr).
  { discriminate. }
  { intros s _. eexists. reflexivity. }
  exists r', w'. eexists. split; [exact Hrun|]. split; [exact Hstatus|].
  split; [exact Houts|]. split; [exact Hidx|]. split; [exact Hnames|].
  rewrite Htr. reflexivity.
Defined.

Lemma planning_failure_short_circuit_witness :
  db Ex.world !! Ex.workflow_id = Some Ex.record ∧
  wf_id Ex.record = Some Ex.workflow_id ∧
  ∃ r' w',
    run_agentic_podcast_workflow Ex.director_down Ex.writer_stub Ex.arrival
      Ex.workflow_id "source text" "brief" Ex.speakers "tech" "duo" 3 None None
      Ex.world = (inr (Some r'), w') ∧
    db w' !! Ex.workflow_id = Some r' ∧
    current_stage r' = stage_failed ∧ status r' = failed ∧
    error_message r' = Some "Director agent failed: model unavailable" ∧
    writer_calls w' = [].
Proof.
  split; [reflexivity|]. split; [reflexivity|].
  destruct (planning_failure_short_circuit Ex.director_down Ex.writer_stub
              Ex.arrival Ex.workflow_id "source text" "brief" Ex.speakers "tech"
              "duo" 3 None None Ex.world Ex.record (Exception "model unavailable")
              eq_refl eq_refl eq_refl)
    as (r' & w' & Hrun & Hdb & _ & Hstage & Hstatus & Hmsg & Hcalls).
  exists r', w'. repeat split; assumption.
Defined.

Lemma parallel_tasks_see_no_previous_segments_witness :
  reorders Ex.arrival ∧
  fresh_record Ex.world Ex.workflow_id Ex.record ∧
  ∃ res w',
    run_agentic_podcast_workflow Ex.director_stub Ex.writer_stub Ex.arrival
      Ex.workflow_id "source text" "brief" Ex.speakers "tech" "duo" 3 None None
      Ex.world = (inr res, w') ∧
    Forall (fun c => wc_previous_segments c = None) (writer_calls w').
Proof.
  split; [exact reverse_arrival_reorders|]. split; [exact example_record_fresh|].
  destruct (parallel_tasks_see_no_previous_segments Ex.director_stub Ex.writer_stub
              Ex.arrival Ex.workflow_id "source text" "brief" Ex.speakers "tech"
              "duo" 3 None None Ex.world Ex.record
              reverse_arrival_reorders example_record_fresh)
    as (res & w' & new & Hrun & Hcalls & Hnew).
  exists res, w'. split; [exact Hrun|].
  rewrite Hcalls. simpl. eapply Forall_impl; [exact Hnew|]. by intros c [? _].
Defined.

Lemma engine_assigned_indices_unique_witness :
  reorders Ex.arrival ∧
  fresh_record Ex.world Ex.workflow_id Ex.record ∧
  ∃ sf w',
    ainvoke Ex.director_stub Ex.writer_failing_on_1 Ex.arrival
      (initial_state Ex.workflow_id "source text" "brief" Ex.speakers "tech" "duo"
         3 None None) Ex.world = (inr sf, w') ∧
    NoDup (map segment_index (st_writer_outputs sf)).
Proof.
  split; [exact reverse_arrival_reorders|]. split; [exact example_record_fresh|].
  destruct (engine_assigned_indices_unique Ex.director_stub Ex.writer_failing_on_1
              Ex.arrival Ex.workflow_id "source text" "brief" Ex.speakers "tech"
              "duo" 3 None None Ex.world Ex.record
              reverse_arrival_reorders example_record_fresh)
    as (_ & _ & sf & w' & Hrun & Hnd & _).
  by exists sf, w'.
Defined.

Lemma terminal_save_is_last_of_run_witness :
  reorders Ex.arrival ∧
  fresh_record Ex.world Ex.workflow_id Ex.record ∧
  ∃ res w' new,
    run_agentic_podcast_workflow Ex.director_stub Ex.writer_failing_on_1 Ex.arrival
      Ex.workflow_id "source text" "brief" Ex.speakers "tech" "duo" 3 None None
      Ex.world = (inr res, w') ∧
    saves w' = new ∧
    ∀ pre x post, new = (pre ++ x :: post)%list → terminal x → post = [].
Proof.
  split; [exact reverse_arrival_reorders|]. split; [exact example_record_fresh|].
  destruct (terminal_save_is_last_of_run Ex.director_stub Ex.writer_failing_on_1
              Ex.arrival Ex.workflow_id "source text" "brief" Ex.speakers "tech"
              "duo" 3 None None Ex.world Ex.record
              reverse_arrival_reorders example_record_fresh)
    as (res & w' & new & Hrun & Hsaves & _ & Hlast).
  by exists res, w', new.
Defined.

(** A failed record that still holds two writer outputs: no transcript. *)
Lemma transcript_guard_witness :
  db Ex.failed_world !! Ex.workflow_id = Some Ex.failed_record_with_outputs ∧
  status Ex.failed_record_with_outputs ≠ completed ∧
  writer_outputs Ex.failed_record_with_outputs = Some [Ex.out_a; Ex.out_c] ∧
  get_transcript Ex.workflow_id Ex.failed_world =
    (inl (HTTPException 400 "Workflow is not completed (status: failed)"),
     Ex.failed_world).
Proof.
  assert (status Ex.failed_record_with_outputs ≠ completed) as Hs by discriminate.
  split; [reflexivity|]. split; [exact Hs|]. split; [reflexivity|].
  exact (proj1 (transcript_guard Ex.workflow_id Ex.failed_world)
           Ex.failed_record_with_outputs eq_refl Hs).
Defined.

Lemma deterministic_sizing_witness :
  20 <= 30 ∧ target_turns long 10 30 = clamp 10 20 30.
Proof.
  assert (20 <= 30) as H by lia.
  split; [exact H|].
  exact (proj1 (proj2 (proj2 (deterministic_sizing 10 30))) H).
Defined.

(** C7, counterexample.  The reducer is not commutative: [A] + [C] is not
    [C] + [A]. *)
Lemma merge_not_commutative_counterexample :
  ¬ (∀ x y : list WriterOutput, merge x y = merge y x).
Proof. intros H. specialize (H [Ex.out_a] [Ex.out_c]). discriminate H. Qed.

Lemma merge_order_irrelevant_after_sort_witness :
  NoDup [segment_index Ex.out_a; segment_index Ex.out_b; segment_index Ex.out_c] ∧
  Py.sorted segment_index (merge (merge [Ex.out_a] [Ex.out_b]) [Ex.out_c])
    = Py.sorted segment_index (merge [Ex.out_c] (merge [Ex.out_a] [Ex.out_b])).
Proof.
  assert (NoDup [segment_index Ex.out_a; segment_index Ex.out_b;
                 segment_index Ex.out_c]) as H.
  { simpl. compute_done. }
  split; [exact H|].
  exact (proj2 (proj2 (proj2 (proj2 merge_order_irrelevant_after_sort)))
           Ex.out_a Ex.out_b Ex.out_c H).
Defined.

(** C8, counterexample.  The transition operations carry no guard: on a
    completed record,
    [mark_failed] makes it failed and sets an error message, [update_stage]
    takes it back to (director, in_progress), and a second run of the engine
    on it (here with the director down) overwrites the completed state. *)
Lemma terminal_state_not_immutable_counterexample :
  terminal Ex.completed_record ∧
  db Ex.completed_world !! Ex.workflow_id = Some Ex.completed_record ∧
  (∃ r' w',
     mark_failed Ex.completed_record "late failure" Ex.completed_world = (inr r', w') ∧
     db w' !! Ex.workflow_id = Some r' ∧
     status r' = failed ∧ error_message r' = Some "late failure" ∧
     error_message Ex.completed_record = None) ∧
  (∃ r' w',
     update_stage Ex.completed_record director in_progress Ex.completed_world
       = (inr r', w') ∧
     db w' !! Ex.workflow_id = Some r' ∧
     current_stage r' = director ∧ status r' = in_progress) ∧
  (∃ r' w',
     run_agentic_podcast_workflow Ex.director_down Ex.writer_stub Ex.arrival
       Ex.workflow_id "source text" "brief" Ex.speakers "tech" "duo" 3 None None
       Ex.completed_world = (inr (Some r'), w') ∧
     status r' = failed ∧
     error_message r' = Some "Director agent failed: model unavailable").
Proof.
  split; [by left|]. split; [reflexivity|].
  split; [|split]; eexists _, _; (split; [vm_compute; reflexivity|]);
    repeat split; reflexivity.
Qed.

(** C9, counterexample.  A request with both direct content and a notebook id
    is accepted: a record is created, with the direct content. *)
Lemma both_sources_accepted_counterexample :
  Py.truthy_str (rq_content Ex.request_both) = true ∧
  Py.truthy_str (rq_notebook_id Ex.request_both) = true ∧
  ∃ resp w' r,
    create_workflow Ex.director_stub Ex.writer_stub Ex.arrival Ex.episode_profiles
      Ex.speaker_profiles Ex.gather Ex.request_both Ex.empty_world = (inr resp, w') ∧
    db Ex.empty_world = ∅ ∧
    db w' !! rs_workflow_id resp = Some r ∧
    rs_status resp = completed ∧
    wf_content r = Some "source text" ∧
    wf_notebook_id r = Some "notebook:1".
Proof.
  split; [reflexivity|]. split; [reflexivity|].
  eexists _, _, _. split; [vm_compute; reflexivity|].
  repeat split; reflexivity.
Qed.

Lemma content_source_validation_witness :
  Py.truthy_str (rq_content Ex.request_neither) = false ∧
  Py.truthy_str (rq_notebook_id Ex.request_neither) = false ∧
  ∃ detail,
    create_workflow Ex.director_stub Ex.writer_stub Ex.arrival Ex.episode_profiles
      Ex.speaker_profiles Ex.gather Ex.request_neither Ex.empty_world
    = (inl (HTTPException 400 detail), Ex.empty_world).
Proof.
  split; [reflexivity|]. split; [reflexivity|].
  destruct (proj1 (content_source_validation Ex.director_stub Ex.writer_stub
                     Ex.arrival Ex.episode_profiles Ex.speaker_profiles Ex.gather
                     Ex.request_neither Ex.empty_world) eq_refl eq_refl)
    as (code & detail & Hrun & _ & Hcode).
  destruct (Hcode _ _ eq_refl eq_refl) as [-> _].
  by exists detail.
Defined.

(** * Further properties of the code *)

(** ** The writer's request *)

Lemma last_n_two {A} (pre : list A) a b :
  Py.last_n 2 (pre ++ [a; b])%list = [a; b].
Proof.
  unfold Py.last_n. rewrite length_app. simpl.
  replace (length pre + 2 - 2)%nat with (length pre) by lia.
  by rewrite drop_app_length.
Qed.

(** X1.  Only the last two previous segments reach the writer's request:
    whatever precedes them, the request built for a segment is the one built
    from the last two alone; and with no previous segment (none, or an empty
    list) the request carries no previous transcript. *)
Theorem prompt_uses_last_two_segments
    (segment : OutlineSegment) (index : Z) (content briefing : string)
    (speakers : list Speaker) (outline : list OutlineSegment)
    (earlier : list WriterOutput) (a b : WriterOutput) (min_turns max_turns : Z) :
  writer_prompt segment index content briefing speakers outline
    (Some (earlier ++ [a; b])%list) min_turns max_turns
  = writer_prompt segment index content briefing speakers outline
      (Some [a; b]) min_turns max_turns ∧
  wp_previous_transcript
    (writer_prompt segment index content briefing speakers outline (Some [])
       min_turns max_turns) = None ∧
  wp_previous_transcript
    (writer_prompt segment index content briefing speakers outline None
       min_turns max_turns) = None.
Proof.
  split; [|done]. unfold writer_prompt. f_equal.
  unfold previous_transcript_text.
  destruct (earlier ++ [a; b])%list as [|p ps] eqn:Heq.
  - by destruct earlier.
  - rewrite <- Heq. by rewrite last_n_two.
Qed.

(** X2.  The range of the target turn count: a short segment always gets 8 to
    15 turns and a medium one 15 to 25, whatever the maximum is (the maximum is
    not looked at for these sizes); a long segment never gets more than the
    maximum, gets at least 20 when the maximum allows it, and the count never
    decreases when the requested minimum grows. *)
Theorem target_turns_range (sz : SegmentSize) (min_turns max_turns : Z) :
  8 <= target_turns short min_turns max_turns <= 15 ∧
  15 <= target_turns medium min_turns max_turns <= 25 ∧
  (∀ other_max,
     target_turns short min_turns other_max = target_turns short min_turns max_turns ∧
     target_turns medium min_turns other_max = target_turns medium min_turns max_turns) ∧
  target_turns long min_turns max_turns <= max_turns ∧
  (20 <= max_turns → 20 <= target_turns long min_turns max_turns) ∧
  (∀ larger, min_turns <= larger →
     target_turns sz min_turns max_turns <= target_turns sz larger max_turns).
Proof.
  unfold target_turns. repeat split; try lia. intros larger Hle.
  destruct sz; lia.
Qed.

(** ** The fan-out *)

Lemma enumerate_from_lookup {A} (l : list A) (i : Z) (k : nat) (x : A) (j : Z) :
  Py.enumerate_from i l !! k = Some (j, x) ↔ j = i + Z.of_nat k ∧ l !! k = Some x.
Proof.
  revert i k. induction l as [|y l IH]; intros i k; simpl.
  - split; [done|]. by intros [_ ?].
  - destruct k as [|k]; simpl.
    + split; [intros [= <- <-]; split; [lia|done]|].
      intros [-> [= ->]]. repeat f_equal; lia.
    + rewrite IH. split; intros [-> ?]; split; try done; lia.
Qed.

(** X3.  What each launched task carries: with no plan in the state nothing is
    launched; with a plan of k segments exactly k tasks are launched, and the
    task at position i carries segment i of the plan, the index i, the whole
    outline, the state's workflow id, content, briefing, speakers and model, and
    an empty list of previous segments. *)
Theorem fan_out_by_position (state : AgenticPodcastState) :
  (st_director_output state = None → trigger_segment_writers state = []) ∧
  (∀ out, st_director_output state = Some out →
     length (trigger_segment_writers state) = length (segments out) ∧
     ∀ (i : nat) s, trigger_segment_writers state !! i = Some s ↔
       segments out !! i = Some (sw_segment s) ∧
       s = mkSend (st_workflow_id state) (sw_segment s) (Z.of_nat i)
             (st_content state) (st_briefing state) (st_speakers state)
             (segments out) [] (st_transcript_model state)).
Proof.
  unfold trigger_segment_writers. split; [by intros ->|].
  intros out ->. split.
  - rewrite length_map. unfold Py.enumerate. generalize 0.
    induction (segments out) as [|x l IH]; intros z; simpl; [done|].
    by rewrite IH.
  - intros i s. rewrite list_lookup_fmap. unfold Py.enumerate. split.
    + destruct (Py.enumerate_from 0 (segments out) !! i) as [[j x]|] eqn:Hl;
        [|done].
      apply enumerate_from_lookup in Hl as [-> Hx]. simpl. intros [= <-].
      simpl. split; [done|]. repeat f_equal; lia.
    + intros [Hseg ->]. simpl in *.
      assert (Py.enumerate_from 0 (segments out) !! i
                = Some (Z.of_nat i, sw_segment s)) as ->; [|done].
      apply enumerate_from_lookup. split; [lia|done].
Qed.

(** ** The nodes of the graph on any state of the store *)

Section MoreEngine.
Context (director_llm : option string → DirectorPrompt → exn + (string * list OutlineSegment)).
Context (writer_llm : option string → WriterPrompt → exn + list TranscriptLine).
Context (arrival : list SegmentWriterState → list SegmentWriterState).

#[local] Abbreviation run2 := (run_agentic_podcast_workflow director_llm writer_llm arrival).

(** X4.  A writing task never raises and never writes to the store: on any
    world it returns an update that touches only the two accumulated channels
    and holds exactly one outcome, either one output or one error; the store and
    the history of saves are unchanged, and the writer agent is called at most
    once, for the task's own segment and index. *)
Theorem task_reports_one_outcome (s : SegmentWriterState) (w : World) :
  ∃ u w',
    write_segment writer_llm s w = (inr u, w') ∧
    db w' = db w ∧ saves w' = saves w ∧
    u_director_output u = None ∧ u_current_stage u = None ∧
    (length (u_writer_outputs u) + length (u_errors u) = 1)%nat ∧
    (writer_calls w' = writer_calls w ∨
     ∃ c, writer_calls w' = (writer_calls w ++ [c])%list ∧
          wc_segment_index c = sw_segment_index s ∧ wc_segment c = sw_segment s).
Proof.
  unfold write_segment, try_except, bind, Store.get, Store.obj, writer_agent,
    log_writer_call, ret, raise.
  destruct (db w !! sw_workflow_id s) as [r|]; simpl.
  - destruct (writer_llm _ _); simpl; eexists _, _; (split; [reflexivity|]);
      repeat split; right; eexists; split; [reflexivity|done | reflexivity|done].
  - eexists _, _. split; [reflexivity|]. repeat split. by left.
Qed.

(** X5.  The continuity context of a task: when the record already holds
    writer outputs, the task passes to the writer exactly the stored outputs
    whose index is smaller than its own, and passes [None] when there is none. *)
Theorem task_context_is_earlier_outputs (s : SegmentWriterState) (w : World)
    (r : AgenticPodcastWorkflow) :
  db w !! sw_workflow_id s = Some r →
  ∃ u c,
    write_segment writer_llm s w =
      (inr u, mkWorld (db w) (saves w) (writer_calls w ++ [c])) ∧
    (∀ o, o ∈ default [] (wc_previous_segments c) ↔
          o ∈ default [] (writer_outputs r) ∧
          segment_index o < sw_segment_index s) ∧
    (wc_previous_segments c = None ↔
     ∀ o, o ∈ default [] (writer_outputs r) → sw_segment_index s <= segment_index o).
Proof.
  intros Hdb.
  unfold write_segment, try_except, bind, Store.get, Store.obj, writer_agent,
    log_writer_call, ret, raise.
  rewrite Hdb. cbn [db saves writer_calls].
  set (stored := default [] (writer_outputs r)).
  assert (match writer_outputs r with
          | Some (_ :: _) => get_writer_outputs r
          | _ => []
          end = stored) as ->.
  { unfold stored, get_writer_outputs. by destruct (writer_outputs r) as [[|]|]. }
  set (earlier := List.filter _ stored).
  assert (∀ o, o ∈ earlier ↔ o ∈ stored ∧ segment_index o < sw_segment_index s)
    as Hearlier.
  { intros o. unfold earlier. rewrite !list_elem_of_In, filter_In.
    by rewrite Z.ltb_lt. }
  assert (earlier = [] ↔
          ∀ o, o ∈ stored → sw_segment_index s <= segment_index o) as Hnone.
  { split.
    - intros Hnil o Ho.
      destruct (Z.le_gt_cases (sw_segment_index s) (segment_index o)); [done|].
      assert (o ∈ earlier) as Hin by (apply Hearlier; split; [done|lia]).
      rewrite Hnil in Hin. by inv Hin.
    - intros Hall. destruct earlier as [|p ps]; [done|].
      assert (p ∈ p :: ps) as Hin by left.
      apply Hearlier in Hin as [Hin Hlt]. apply Hall in Hin. lia. }
  clearbody earlier.
  destruct (writer_llm _ _); eexists _, _; (split; [reflexivity|]);
    cbn [wc_previous_segments]; rewrite <- Hnone.
  all: destruct earlier as [|p ps]; cbn [default]; (split; [exact Hearlier|]);
    split; done.
Qed.

(** X6.  The join step never raises.  It reports completion only when no
    error was accumulated and at least one output was, and otherwise reports
    failure; it adds no output to the accumulator; and when the workflow is not
    in the store it changes nothing and reports the failure to save. *)
Theorem join_never_raises (state : AgenticPodcastState) (w : World) :
  ∃ u w',
    save_workflow state w = (inr u, w') ∧
    u_writer_outputs u = [] ∧ u_director_output u = None ∧
    (u_current_stage u = Some stage_completed ∧
       st_errors state = [] ∧ st_writer_outputs state ≠ [] ∨
     u_current_stage u = Some stage_failed) ∧
    (db w !! st_workflow_id state = None →
     w' = w ∧ u_current_stage u = Some stage_failed ∧
     u_errors u = ["Failed to save workflow: 'NoneType' object has no attribute"]).
Proof.
  unfold save_workflow, try_except, bind, Store.get, Store.obj, mark_failed,
    mark_completed, Store.save, ret, raise.
  destruct (db w !! st_workflow_id state) as [r|] eqn:Hdb;
    destruct (st_errors state) as [|e es]; destruct (st_writer_outputs state) as [|o os];
    cbn [db saves writer_calls]; rewrite ?Hdb;
    eexists _, _; (split; [reflexivity|]); repeat split; auto; try done.
  all: left; repeat split; done.
Qed.

(** X7.  A run on a workflow id that is not in the store raises, calls no
    agent and leaves the world as it was. *)
Theorem run_on_missing_workflow (wid content briefing : string)
    (speakers : list Speaker) (epn spn : string) (n : Z) (om tm : option string)
    (w : World) :
  db w !! wid = None →
  ∃ e, run2 wid content briefing speakers epn spn n om tm w = (inl e, w).
Proof.
  intros Hdb.
  set (missing := Exception "'NoneType' object has no attribute").
  assert (∀ {A} (k : AgenticPodcastWorkflow → M A),
            bind (bind (Store.get wid) (fun o => Store.obj o)) k w
              = (inl missing, w)) as Hget.
  { intros A k. unfold bind, Store.get, Store.obj, raise. by rewrite Hdb. }
  assert (∀ {A B} (k1 : option AgenticPodcastWorkflow → M A) (k : A → M B),
            (∀ o, k1 o = bind (Store.obj o) (fun r => k1 (Some r))) → True) as _
    by done.
  assert (run_director director_llm
            (initial_state wid content briefing speakers epn spn n om tm) w
          = (inl missing, w)) as Hdir.
  { unfold run_director, try_except, bind, Store.get, Store.obj, raise.
    cbn [st_workflow_id initial_state]. rewrite Hdb. cbv beta iota.
    by rewrite Hdb. }
  exists missing.
  unfold run_agentic_podcast_workflow.
  erewrite try_except_err; cycle 1.
  { apply bind_err. unfold ainvoke. by apply bind_err. }
  unfold bind, try_except, Store.get, Store.obj, raise, ret. by rewrite Hdb.
Qed.

End MoreEngine.
